(** * Portfolio backend (server.js): a shallow embedding of the Express
    handlers over a model of the Mongoose collections and of the
    Cloudinary upload, and the properties of the specification.

    The embedded program is the live part of [src/server.js]
    (lines 232-462).  Request bodies are JavaScript objects (finite maps
    from property names to values); handlers are written in a state and
    exception monad over the document store, so that each definition can be
    read next to the handler it comes from. *)

From Stdlib Require Import ZArith String Ascii List Lia.
From Stdlib Require Import Sorting.Permutation.
From stdpp Require Import base option list strings gmap.

Open Scope string_scope.
Open Scope list_scope.

(** ** JavaScript values and objects *)

Module JS.

(** The values that travel through the handlers: members of a parsed JSON or
    multipart body, and what Mongoose stores.  Arrays are arrays of strings,
    the only arrays the schemas declare ([tech: [String]]). *)
Inductive value : Type :=
  | VUndef
  | VNull
  | VBool (b : bool)
  | VNum (n : Z)
  | VStr (s : string)
  | VDate (t : Z)
  | VArr (l : list string).

(** An object literal or [req.body]: property name to value.  A property can
    be present with the value [undefined]; [{ image }] with [image]
    unassigned is such an object. *)
Abbreviation object := (gmap string value).

(** [o.k]: a missing property reads as [undefined]. *)
Definition get (o : object) (k : string) : value := default VUndef (o !! k).

(** ToBoolean. *)
Definition truthy (v : value) : bool :=
  match v with
  | VUndef | VNull => false
  | VBool b => b
  | VNum n => negb (n =? 0)%Z
  | VStr s => negb (String.eqb s "")
  | VDate _ | VArr _ => true
  end.

Definition defined (v : value) : bool :=
  match v with
  | VUndef => false
  | _ => true
  end.

(** [{ ...o, ...(v && { k: v }) }]: spreading a falsy value adds nothing. *)
Definition spread_if_truthy (k : string) (v : value) (o : object) : object :=
  if truthy v then <[k := v]> o else o.

(** [s.split(sep)] for a one-character separator: the pieces between the
    separators, in order; the empty string splits into one empty piece. *)
Fixpoint split (sep : ascii) (s : string) : list string :=
  match s with
  | EmptyString => [EmptyString]
  | String c r =>
      if Ascii.eqb c sep then EmptyString :: split sep r
      else match split sep r with
           | h :: t => String c h :: t
           | [] => [String c EmptyString]
           end
  end.

(** A thrown [Error]; the handlers read only [e.message]. *)
Record Error : Type := mkError { message : string }.

End JS.
Export JS.

(** ** Results, and the monad of the handlers *)

Inductive outcome (A : Type) : Type :=
  | Ok (a : A)
  | Throw (e : Error).
Arguments Ok {A} a.
Arguments Throw {A} e.

Section Monad.
Context {S : Type}.

(** An asynchronous computation over a state [S] that resolves or
    rejects.  A rejection keeps the state reached so far. *)
Definition M (A : Type) : Type := S -> outcome A * S.

Definition ret {A} (a : A) : M A := fun s => (Ok a, s).

Definition throw {A} (e : Error) : M A := fun s => (Throw e, s).

Definition bind {A B} (c : M A) (k : A -> M B) : M B :=
  fun s => match c s with
           | (Ok a, s') => k a s'
           | (Throw e, s') => (Throw e, s')
           end.

(** [try { c } catch (e) { h e }]. *)
Definition try_catch {A} (c : M A) (h : Error -> M A) : M A :=
  fun s => match c s with
           | (Ok a, s') => (Ok a, s')
           | (Throw e, s') => h e s'
           end.

Definition lift {A} (o : outcome A) : M A := fun s => (o, s).
End Monad.
Arguments M S A : clear implicits.

Declare Scope js_scope.
Delimit Scope js_scope with js.
Notation "x <- c ;; k" := (bind c (fun x => k))
  (at level 100, c at next level, right associativity) : js_scope.
Notation "c ;;; k" := (bind c (fun _ => k))
  (at level 100, right associativity) : js_scope.
Open Scope js_scope.

(** ** What a request meets outside the handler

    One record per request: the clock reading [Date.now()] used while it is
    served, what Cloudinary calls the upload callback with, which store calls
    fail (connection loss, server-side rejection, ...), Mongoose's
    conversions between kinds of values (a number stored in a [String] path
    and the like), which may themselves fail with a cast error, and the
    order in which the storage engine goes through a collection when a
    query asks for none: the documents come by increasing [scan_rank] of
    their identifiers. *)

Record UploadResult : Type := mkUpload { secure_url : string }.

Inductive model : Type :=
  Profile | Project | Experience | Certification | Contact | Testimonial.

#[global] Instance model_eq_dec : EqDecision model.
Proof. solve_decision. Defined.

(** The store calls a handler can make, with their arguments. *)
Inductive call : Type :=
  | CFindOne (m : model)
  | CFind (m : model)
  | CFindSorted (m : model)
  | CCreate (m : model) (data : object)
  | CUpdate (m : model) (id : nat) (data : object)
  | CDelete (m : model) (id : nat).

Inductive ptype : Type := TString | TNumber | TDate | TStrings.

Record Env : Type := mkEnv {
  now : Z;
  cloud : list Byte.byte -> string -> option Error * UploadResult;
  store_fault : call -> option Error;
  coerce : ptype -> value -> outcome value;
  scan_rank : nat -> nat
}.

(** ** Cloudinary (lines 265-272) *)

(** [uploadToCloudinary(buffer, folder)]: the promise rejects with [err] when
    the upload callback receives one, and resolves with [result] otherwise. *)
Definition uploadToCloudinary {S} (env : Env) (buffer : list Byte.byte)
    (folder : string) : M S UploadResult :=
  match cloud env buffer folder with
  | (Some err, _) => throw err
  | (None, result) => ret result
  end.

(** ** The document store (Mongoose models, lines 275-320) *)

Module Mongoose.

Inductive pdefault : Type :=
  | NoDefault
  | DefaultNow.  (* default: Date.now *)

Record spath : Type := mkPath { pname : string; ptyp : ptype; pdef : pdefault }.

Record schema : Type := mkSchema { paths : list spath; timestamps : bool }.

Definition str (n : string) : spath := mkPath n TString NoDefault.

Definition schema_of (m : model) : schema :=
  match m with
  | Profile =>
      mkSchema [str "name"; str "title"; str "bio"; str "photo"] false
  | Project =>
      mkSchema [str "title"; str "description";
                mkPath "tech" TStrings NoDefault;
                str "image"; str "github"; str "live"] true
  | Experience =>
      mkSchema [str "company"; str "role"; str "startDate"; str "endDate";
                str "description"] true
  | Certification =>
      mkSchema [str "name"; str "issuer"; str "year"; str "image"] true
  | Contact =>
      mkSchema [str "name"; str "email"; str "phone"; str "message";
                mkPath "createdAt" TDate DefaultNow] false
  | Testimonial =>
      mkSchema [str "name"; str "role"; str "company"; str "message";
                mkPath "rating" TNumber NoDefault] true
  end.

(** A stored document: its identifier and the schema paths that are set.
    Of the two paths that [timestamps: true] maintains only [createdAt] is
    kept (the listings sort on it): [updatedAt], which every save and
    update rewrites, and the version key are left out, so that a stored
    document stands for the document up to these two members. *)
Record document : Type := mkDoc { _id : nat; fields : object }.

(** [timestamps: true] adds [createdAt] to the schema; it can be given at
    creation and is immutable afterwards. *)
Definition created_path : spath := mkPath "createdAt" TDate NoDefault.

Definition doc_paths (s : schema) : list spath :=
  paths s ++ (if timestamps s then [created_path] else []).

(** Casting a supplied value to the type of its path.  [null] is kept by
    every caster and a value of the path's own kind is stored as it is; the
    other conversions are the environment's. *)
Definition cast (env : Env) (ty : ptype) (v : value) : outcome value :=
  match ty, v with
  | _, VNull => Ok VNull
  | TString, VStr _ => Ok v
  | TNumber, VNum _ => Ok v
  | TDate, VDate _ => Ok v
  | TStrings, VArr _ => Ok v
  | _, _ => coerce env ty v
  end.

(** The value a path takes when the document is built without it: the
    declared default, and the empty array for an array path (Mongoose gives
    every array path that default). *)
Definition default_value (now : Z) (p : spath) : value :=
  match pdef p, ptyp p with
  | DefaultNow, _ => VDate now
  | NoDefault, TStrings => VArr []
  | NoDefault, _ => VUndef
  end.

Definition set_defined (k : string) (v : value) (o : object) : object :=
  match v with
  | VUndef => o
  | _ => <[k := v]> o
  end.

(** What one path takes from [data]: a member that is missing or
    [undefined] gives [dflt] of the path, any other is cast. *)
Definition member (env : Env) (dflt : spath -> value) (p : spath)
    (data : object) : outcome value :=
  let v := get data (pname p) in
  if defined v then cast env (ptyp p) v else Ok (dflt p).

(** Casting the members of [data] along the schema (strict mode: members
    outside the schema are ignored).  A failed cast is thrown; a path whose
    value ends [undefined] is left unset. *)
Fixpoint cast_paths (env : Env) (dflt : spath -> value) (ps : list spath)
    (data : object) : outcome object :=
  match ps with
  | [] => Ok ∅
  | p :: rest =>
      match member env dflt p data with
      | Ok v' =>
          match cast_paths env dflt rest data with
          | Ok acc => Ok (set_defined (pname p) v' acc)
          | Throw e => Throw e
          end
      | Throw e => Throw e
      end
  end.

(** [new Model(data)], validated: a path without a value takes its
    default. *)
Definition build (env : Env) (ps : list spath) (data : object) : outcome object :=
  cast_paths env (default_value (now env)) ps data.

(** The [$set] an update performs: [undefined] members are stripped, no
    default applies. *)
Definition cast_update (env : Env) (ps : list spath) (data : object)
    : outcome object :=
  cast_paths env (fun _ => VUndef) ps data.

(** The pre-save hook of [timestamps: true]: [createdAt] is set to the
    current time unless the new document already carries one. *)
Definition stamp (now : Z) (s : schema) (o : object) : object :=
  if timestamps s then
    if truthy (get o "createdAt") then o else <["createdAt" := VDate now]> o
  else o.

(** The collections, each in the order of insertion, and the counter that
    stands for the generation of fresh identifiers. *)
Record Db : Type := mkDb {
  profiles : list document;
  projects : list document;
  experiences : list document;
  certifications : list document;
  contacts : list document;
  testimonials : list document;
  next_id : nat
}.

(** The store together with the record of the calls made to it. *)
Record World : Type := mkWorld { db : Db; store_log : list call }.

Definition coll (m : model) (d : Db) : list document :=
  match m with
  | Profile => profiles d
  | Project => projects d
  | Experience => experiences d
  | Certification => certifications d
  | Contact => contacts d
  | Testimonial => testimonials d
  end.

Definition set_coll (m : model) (l : list document) (d : Db) : Db :=
  match m with
  | Profile =>
      mkDb l (projects d) (experiences d) (certifications d) (contacts d)
        (testimonials d) (next_id d)
  | Project =>
      mkDb (profiles d) l (experiences d) (certifications d) (contacts d)
        (testimonials d) (next_id d)
  | Experience =>
      mkDb (profiles d) (projects d) l (certifications d) (contacts d)
        (testimonials d) (next_id d)
  | Certification =>
      mkDb (profiles d) (projects d) (experiences d) l (contacts d)
        (testimonials d) (next_id d)
  | Contact =>
      mkDb (profiles d) (projects d) (experiences d) (certifications d) l
        (testimonials d) (next_id d)
  | Testimonial =>
      mkDb (profiles d) (projects d) (experiences d) (certifications d)
        (contacts d) l (next_id d)
  end.

Definition fresh (d : Db) : Db :=
  mkDb (profiles d) (projects d) (experiences d) (certifications d)
    (contacts d) (testimonials d) (Datatypes.S (next_id d)).

Definition logged (c : call) (w : World) : World :=
  mkWorld (db w) (store_log w ++ [c]).

(** A call of a model's method is recorded when it is made. *)
Definition record_call (c : call) : M World unit :=
  fun w => (Ok tt, logged c w).

(** The operation reaches the store, which fails if the environment says
    so. *)
Definition reach (env : Env) (c : call) : M World unit :=
  fun w =>
    match store_fault env c with
    | Some e => (Throw e, w)
    | None => (Ok tt, w)
    end.

(** A query, which has nothing to cast: recorded, then sent. *)
Definition store_call (env : Env) (c : call) : M World unit :=
  fun w =>
    match store_fault env c with
    | Some e => (Throw e, logged c w)
    | None => (Ok tt, logged c w)
    end.

Definition read_db : M World Db := fun w => (Ok (db w), w).

Definition write_db (d : Db) : M World unit :=
  fun w => (Ok tt, mkWorld d (store_log w)).

(** [Model.findOne()]: the first document, or [null].  It is called on
    the Profile collection alone, which a store that starts with at most
    one Profile never sees grow beyond one. *)
Definition findOne (env : Env) (m : model) : M World (option document) :=
  store_call env (CFindOne m) ;;;
  d <- read_db ;;
  ret (head (coll m d)).

(** The order of a collection scan: by increasing rank, documents of one
    rank in the order of insertion. *)
Fixpoint insert_rank (env : Env) (d : document) (l : list document)
    : list document :=
  match l with
  | [] => [d]
  | x :: r =>
      if Nat.leb (scan_rank env (_id d)) (scan_rank env (_id x)) then d :: l
      else x :: insert_rank env d r
  end.

Definition scan (env : Env) (l : list document) : list document :=
  fold_right (insert_rank env) [] l.

(** [Model.find()]: the documents in the order the scan meets them. *)
Definition find (env : Env) (m : model) : M World (list document) :=
  store_call env (CFind m) ;;;
  d <- read_db ;;
  ret (scan env (coll m d)).

(** The sort key of [{ createdAt: -1 }]: a document without a date sorts
    below every dated one. *)
Definition created_key (d : document) : option Z :=
  match get (fields d) "createdAt" with
  | VDate t => Some t
  | _ => None
  end.

(** [key a <= key b] *)
Definition key_leb (a b : option Z) : bool :=
  match a, b with
  | None, _ => true
  | Some _, None => false
  | Some x, Some y => (x <=? y)%Z
  end.

(** Descending: [d] goes in front of the first document whose key is not
    above its own, so documents of equal key keep the order they have in
    the list that is sorted. *)
Fixpoint insert_desc (d : document) (l : list document) : list document :=
  match l with
  | [] => [d]
  | x :: r =>
      if key_leb (created_key x) (created_key d) then d :: l
      else x :: insert_desc d r
  end.

Definition sort_createdAt_desc (l : list document) : list document :=
  fold_right insert_desc [] l.

(** [Model.find().sort({ createdAt: -1 })]: one query.  The store sorts what
    its scan gives, so that documents of equal [createdAt], or without one,
    come in the order of the scan, which the environment chooses. *)
Definition find_sorted (env : Env) (m : model) : M World (list document) :=
  store_call env (CFindSorted m) ;;;
  d <- read_db ;;
  ret (sort_createdAt_desc (scan env (coll m d))).

(** [Model.create(data)]: build and validate, which fails before anything is
    sent to the store; then stamp and insert at the end under a fresh
    identifier.  An [_id] member of [data] is not modelled: the identifier
    is always the generated one. *)
Definition create (env : Env) (m : model) (data : object) : M World document :=
  record_call (CCreate m data) ;;;
  o <- lift (build env (doc_paths (schema_of m)) data) ;;
  reach env (CCreate m data) ;;;
  d <- read_db ;;
  let doc := mkDoc (next_id d) (stamp (now env) (schema_of m) o) in
  write_db (fresh (set_coll m (coll m d ++ [doc]) d)) ;;;
  ret doc.

(** The first document with the identifier is replaced by [f] of it. *)
Fixpoint update_first (id : nat) (f : document -> document)
    (l : list document) : option (document * list document) :=
  match l with
  | [] => None
  | x :: r =>
      if Nat.eqb (_id x) id then Some (f x, f x :: r)
      else match update_first id f r with
           | Some (y, r') => Some (y, x :: r')
           | None => None
           end
  end.

(** [$set]: the supplied paths over the stored ones. *)
Definition set_fields (upd : object) (x : document) : document :=
  mkDoc (_id x) (upd ∪ fields x).

(** [Model.findByIdAndUpdate(id, data, { new: true })]: the update is cast,
    which fails before anything is sent to the store; then the updated
    document, or [null] when no document has the identifier. *)
Definition findByIdAndUpdate (env : Env) (m : model) (id : nat)
    (data : object) : M World (option document) :=
  record_call (CUpdate m id data) ;;;
  upd <- lift (cast_update env (paths (schema_of m)) data) ;;
  reach env (CUpdate m id data) ;;;
  d <- read_db ;;
  match update_first id (set_fields upd) (coll m d) with
  | Some (x, l) => write_db (set_coll m l d) ;;; ret (Some x)
  | None => ret None
  end.

Fixpoint remove_first (id : nat) (l : list document) : list document :=
  match l with
  | [] => []
  | x :: r => if Nat.eqb (_id x) id then r else x :: remove_first id r
  end.

(** [Model.findByIdAndDelete(id)]. *)
Definition findByIdAndDelete (env : Env) (m : model) (id : nat)
    : M World unit :=
  store_call env (CDelete m id) ;;;
  d <- read_db ;;
  write_db (set_coll m (remove_first id (coll m d)) d).

End Mongoose.
Export Mongoose.

(** ** Express: requests, responses, handlers (lines 322-458) *)

(** [req.file] as multer's memory storage leaves it. *)
Record File : Type := mkFile { buffer : list Byte.byte }.

(** What a handler reads of a request: the parsed body, the uploaded file
    when there is one, and the [:id] path parameter as an identifier.
    [file] is set by [upload.single] alone, which four routes register
    (lines 323, 349, 373 and 412): a request to any other route comes with
    [file = None], and the handlers of those routes never read it. *)
Record Request : Type := mkRequest {
  body : object;
  file : option File;
  params_id : nat
}.

Inductive json : Type :=
  | JNull
  | JDoc (d : document)
  | JDocs (l : list document)
  | JObj (o : object).

Record Response : Type := mkResponse { status : nat; payload : json }.

(** How an [async] handler ends: with the response it wrote, or with its
    promise rejected before it wrote one.  In the second case the handler
    has sent nothing; what becomes of the request is then up to the
    framework, not to the handler. *)
Inductive result : Type :=
  | Responded (r : Response)
  | Rejected (e : Error).

Definition res_json (j : json) : M World Response := ret (mkResponse 200 j).

Definition res_status_json (st : nat) (j : json) : M World Response :=
  ret (mkResponse st j).

(** [{ error: e.message }] *)
Definition error_body (e : Error) : json := JObj {["error" := VStr (message e)]}.

(** [res.json(doc)] for a document or [null]. *)
Definition json_of (d : option document) : json :=
  match d with
  | Some x => JDoc x
  | None => JNull
  end.

(** The block every uploading handler starts with:
    [let image; if (req.file) { const r = await uploadToCloudinary(
    req.file.buffer, folder); image = r.secure_url; }]. *)
Definition attached (env : Env) (req : Request) (folder : string)
    : M World value :=
  match file req with
  | Some f =>
      r <- uploadToCloudinary env (buffer f) folder ;;
      ret (VStr (secure_url r))
  | None => ret VUndef
  end.

(** [req.body.tech?.split(",")]: [undefined] on a missing or [null] member,
    the pieces of a string, a [TypeError] on anything else. *)
Definition tech_split (b : object) : outcome value :=
  match get b "tech" with
  | VUndef | VNull => Ok VUndef
  | VStr s => Ok (VArr (split "," s))
  | _ => Throw (mkError "req.body.tech?.split is not a function")
  end.

(** [{ ...req.body, ...(photo && { photo }) }] (line 332) *)
Definition profile_data (photo : value) (b : object) : object :=
  spread_if_truthy "photo" photo b.

(** [{ ...req.body, tech: req.body.tech?.split(","), image }] (lines 357-361) *)
Definition project_create_data (tech image : value) (b : object) : object :=
  <["image" := image]> (<["tech" := tech]> b).

(** [{ ...req.body, tech: req.body.tech?.split(","), ...(image && { image }) }]
    (line 383) *)
Definition project_update_data (tech image : value) (b : object) : object :=
  spread_if_truthy "image" image (<["tech" := tech]> b).

(** [{ ...req.body, image }] (line 419) *)
Definition certification_data (image : value) (b : object) : object :=
  <["image" := image]> b.

Definition on_error (e : Error) : M World Response :=
  res_status_json 500 (error_body e).

(** POST /api/profile (lines 323-342) *)
Definition post_api_profile (env : Env) (req : Request) : M World Response :=
  try_catch
    (photo <- attached env req "portfolio/profile" ;;
     existing <- findOne env Profile ;;
     let data := profile_data photo (body req) in
     result <- match existing with
               | Some e => findByIdAndUpdate env Profile (_id e) data
               | None => d <- create env Profile data ;; ret (Some d)
               end ;;
     res_json (json_of result))
    on_error.

(** GET /api/profile (lines 344-346) *)
Definition get_api_profile (env : Env) (req : Request) : M World Response :=
  p <- findOne env Profile ;;
  res_json (json_of p).

(** POST /api/projects (lines 349-367) *)
Definition post_api_projects (env : Env) (req : Request) : M World Response :=
  try_catch
    (image <- attached env req "portfolio/projects" ;;
     tech <- lift (tech_split (body req)) ;;
     project <- create env Project (project_create_data tech image (body req)) ;;
     res_json (JDoc project))
    on_error.

(** GET /api/projects (lines 369-371) *)
Definition get_api_projects (env : Env) (req : Request) : M World Response :=
  l <- find env Project ;;
  res_json (JDocs l).

(** PUT /api/projects/:id (lines 373-389) *)
Definition put_api_projects_id (env : Env) (req : Request) : M World Response :=
  try_catch
    (image <- attached env req "portfolio/projects" ;;
     tech <- lift (tech_split (body req)) ;;
     updated <- findByIdAndUpdate env Project (params_id req)
                  (project_update_data tech image (body req)) ;;
     res_json (json_of updated))
    on_error.

(** DELETE /api/projects/:id (lines 391-394) *)
Definition delete_api_projects_id (env : Env) (req : Request)
    : M World Response :=
  findByIdAndDelete env Project (params_id req) ;;;
  res_json (JObj {["message" := VStr "Project deleted"]}).

(** POST /api/experience (lines 397-399) *)
Definition post_api_experience (env : Env) (req : Request) : M World Response :=
  d <- create env Experience (body req) ;;
  res_json (JDoc d).

(** GET /api/experience (lines 400-402) *)
Definition get_api_experience (env : Env) (req : Request) : M World Response :=
  l <- find env Experience ;;
  res_json (JDocs l).

(** PUT /api/experience/:id (lines 403-405) *)
Definition put_api_experience_id (env : Env) (req : Request)
    : M World Response :=
  d <- findByIdAndUpdate env Experience (params_id req) (body req) ;;
  res_json (json_of d).

(** DELETE /api/experience/:id (lines 406-409) *)
Definition delete_api_experience_id (env : Env) (req : Request)
    : M World Response :=
  findByIdAndDelete env Experience (params_id req) ;;;
  res_json (JObj {["message" := VStr "Experience deleted"]}).

(** POST /api/certifications (lines 412-423) *)
Definition post_api_certifications (env : Env) (req : Request)
    : M World Response :=
  try_catch
    (image <- attached env req "portfolio/certifications" ;;
     d <- create env Certification (certification_data image (body req)) ;;
     res_json (JDoc d))
    on_error.

(** GET /api/certifications (lines 424-426) *)
Definition get_api_certifications (env : Env) (req : Request)
    : M World Response :=
  l <- find env Certification ;;
  res_json (JDocs l).

(** DELETE /api/certifications/:id (lines 427-430) *)
Definition delete_api_certifications_id (env : Env) (req : Request)
    : M World Response :=
  findByIdAndDelete env Certification (params_id req) ;;;
  res_json (JObj {["message" := VStr "Deleted"]}).

(** POST /api/contact (lines 433-440) *)
Definition post_api_contact (env : Env) (req : Request) : M World Response :=
  let name := get (body req) "name" in
  let email := get (body req) "email" in
  let message := get (body req) "message" in
  if negb (truthy name) || negb (truthy email) || negb (truthy message) then
    res_status_json 400 (JObj {["error" := VStr "All fields required"]})
  else
    create env Contact (body req) ;;;
    res_json (JObj {["success" := VBool true]}).

(** GET /api/contact (lines 441-443) *)
Definition get_api_contact (env : Env) (req : Request) : M World Response :=
  l <- find_sorted env Contact ;;
  res_json (JDocs l).

(** POST /api/testimonials (lines 446-448) *)
Definition post_api_testimonials (env : Env) (req : Request)
    : M World Response :=
  d <- create env Testimonial (body req) ;;
  res_json (JDoc d).

(** PUT /api/testimonials/:id (lines 449-451) *)
Definition put_api_testimonials_id (env : Env) (req : Request)
    : M World Response :=
  d <- findByIdAndUpdate env Testimonial (params_id req) (body req) ;;
  res_json (json_of d).

(** DELETE /api/testimonials/:id (lines 452-455) *)
Definition delete_api_testimonials_id (env : Env) (req : Request)
    : M World Response :=
  findByIdAndDelete env Testimonial (params_id req) ;;;
  res_json (JObj {["message" := VStr "Deleted"]}).

(** GET /api/testimonials (lines 456-458) *)
Definition get_api_testimonials (env : Env) (req : Request)
    : M World Response :=
  l <- find_sorted env Testimonial ;;
  res_json (JDocs l).

(** The routes the application registers. *)
Inductive route : Type :=
  | POST_profile | GET_profile
  | POST_projects | GET_projects | PUT_projects_id | DELETE_projects_id
  | POST_experience | GET_experience | PUT_experience_id
  | DELETE_experience_id
  | POST_certifications | GET_certifications | DELETE_certifications_id
  | POST_contact | GET_contact
  | POST_testimonials | PUT_testimonials_id | DELETE_testimonials_id
  | GET_testimonials.

#[global] Instance route_eq_dec : EqDecision route.
Proof. solve_decision. Defined.

Definition app (env : Env) (r : route) : Request -> M World Response :=
  match r with
  | POST_profile => post_api_profile env
  | GET_profile => get_api_profile env
  | POST_projects => post_api_projects env
  | GET_projects => get_api_projects env
  | PUT_projects_id => put_api_projects_id env
  | DELETE_projects_id => delete_api_projects_id env
  | POST_experience => post_api_experience env
  | GET_experience => get_api_experience env
  | PUT_experience_id => put_api_experience_id env
  | DELETE_experience_id => delete_api_experience_id env
  | POST_certifications => post_api_certifications env
  | GET_certifications => get_api_certifications env
  | DELETE_certifications_id => delete_api_certifications_id env
  | POST_contact => post_api_contact env
  | GET_contact => get_api_contact env
  | POST_testimonials => post_api_testimonials env
  | PUT_testimonials_id => put_api_testimonials_id env
  | DELETE_testimonials_id => delete_api_testimonials_id env
  | GET_testimonials => get_api_testimonials env
  end.

(** Serving one request: the handler runs to its response, or its promise
    rejects and nothing is written. *)
Definition handle (env : Env) (r : route) (req : Request) (w : World)
    : result * World :=
  match app env r req w with
  | (Ok resp, w') => (Responded resp, w')
  | (Throw e, w') => (Rejected e, w')
  end.

(** Requests served one after the other, each in its own environment. *)
Definition run (steps : list (Env * route * Request)) (w : World) : World :=
  fold_left (fun w '(env, r, req) => snd (handle env r req w)) steps w.


(** ** Vocabulary of the specification *)

Module Spec.

(** The routes that take an attachment, and the folder each uploads to. *)
Definition upload_folder (r : route) : option string :=
  match r with
  | POST_profile => Some "portfolio/profile"
  | POST_projects | PUT_projects_id => Some "portfolio/projects"
  | POST_certifications => Some "portfolio/certifications"
  | _ => None
  end.

(** The store takes the call. *)
Definition accepts (env : Env) (c : call) : Prop := store_fault env c = None.

(** A response with the default status. *)
Definition ok (j : json) : Response := mkResponse 200 j.

(** The 500 response of the [catch] branches. *)
Definition failure (e : Error) : Response := mkResponse 500 (error_body e).

(** A field that a request leaves empty or does not send. *)
Definition empty_or_missing (v : value) : Prop :=
  v = VUndef \/ v = VNull \/ v = VStr "".

Definition nonempty_string (v : value) : Prop :=
  exists s, v = VStr s /\ s <> "".

(** A computation relates the store it starts in to the store it ends in by
    [P], whether it resolves or rejects. *)
Definition preserves {A} (P : Db -> Db -> Prop) (c : M World A) : Prop :=
  forall w, P (db w) (db (snd (c w))).

(** The Profile collection is the same. *)
Definition same_profiles (d d' : Db) : Prop := profiles d' = profiles d.

(** The last call made to the store. *)
Definition last_call (w : World) : option call := last (store_log w).

(** The handler's last store call is [m.create(data)]; and whenever the
    store takes that call and the data validates, the handler answers with
    the created document, which is appended to the collection and whose
    field [k] is [v] ([None]: not set). *)
Definition creates_with (env : Env) (r : route) (req : Request) (w : World)
    (m : model) (data : object) (k : string) (v : option value) : Prop :=
  last_call (snd (handle env r req w)) = Some (CCreate m data)
  /\ forall o,
       accepts env (CCreate m data) ->
       build env (doc_paths (schema_of m)) data = Ok o ->
       exists d w',
         handle env r req w = (Responded (ok (JDoc d)), w')
         /\ coll m (db w') = coll m (db w) ++ [d]
         /\ fields d !! k = v.

(** Serving the request on route [r] answers 200 and appends [d] to the
    collection of [m]. *)
Definition inserts (env : Env) (r : route) (m : model) (req : Request)
    (w w' : World) (d : document) : Prop :=
  exists resp,
    handle env r req w = (Responded resp, w')
    /\ status resp = 200
    /\ coll m (db w') = coll m (db w) ++ [d].

(** The create and the listing route of the two collections that are
    listed newest first. *)
Definition listed (m : model) (poster getter : route) : Prop :=
  (m = Contact /\ poster = POST_contact /\ getter = GET_contact)
  \/ (m = Testimonial /\ poster = POST_testimonials
      /\ getter = GET_testimonials).

(** At most one Profile. *)
Definition singleton_profile (w : World) : Prop :=
  (length (profiles (db w)) <= 1)%nat.

(** Newest first: the keys never increase along the list. *)
Fixpoint newest_first (l : list document) : Prop :=
  match l with
  | [] => True
  | x :: r =>
      (forall y, In y r -> key_leb (created_key y) (created_key x) = true)
      /\ newest_first r
  end.

(** The keys go strictly down along the list. *)
Fixpoint strictly_newest_first (l : list document) : Prop :=
  match l with
  | [] => True
  | x :: r =>
      (forall y, In y r -> key_leb (created_key x) (created_key y) = false)
      /\ strictly_newest_first r
  end.

(** White space that [trim] removes (the ASCII part of it). *)
Definition is_space (c : ascii) : bool :=
  let n := nat_of_ascii c in
  Nat.eqb n 32 || (Nat.leb 9 n && Nat.leb n 13).

Fixpoint trim_start (s : string) : string :=
  match s with
  | EmptyString => EmptyString
  | String c r => if is_space c then trim_start r else s
  end.

Fixpoint trim_end (s : string) : string :=
  match s with
  | EmptyString => EmptyString
  | String c r =>
      match trim_end r with
      | EmptyString => if is_space c then EmptyString else String c EmptyString
      | r' => String c r'
      end
  end.

Definition trim (s : string) : string := trim_end (trim_start s).

(** The tech sequence as the specification words it: the comma-separated
    pieces, each trimmed. *)
Definition trimmed_pieces (s : string) : list string := map trim (split "," s).

End Spec.
Export Spec.

(** ** Concrete environments and requests *)

Module Fixtures.

Definition url0 : string := "https://res.cloudinary.com/demo/p.png".

(** Uploads succeed, the store takes every call, conversions succeed, a
    scan goes in the order of insertion. *)
Definition env_ok (t : Z) : Env :=
  mkEnv t (fun _ _ => (None, mkUpload url0)) (fun _ => None) (fun _ v => Ok v)
    (fun _ => 0%nat).

(** As [env_ok], with a number cast to the date it counts, as Mongoose's
    date caster does. *)
Definition env_dates (t : Z) : Env :=
  mkEnv t (fun _ _ => (None, mkUpload url0)) (fun _ => None)
    (fun ty v =>
       match ty, v with
       | TDate, VNum n => Ok (VDate n)
       | _, _ => Ok v
       end)
    (fun _ => 0%nat).

(** As [env_ok], with a scan that goes against the order of insertion of
    the first hundred identifiers. *)
Definition env_backwards (t : Z) : Env :=
  mkEnv t (fun _ _ => (None, mkUpload url0)) (fun _ => None) (fun _ v => Ok v)
    (fun id => (100 - id)%nat).

(** Every upload fails. *)
Definition env_upload_down : Env :=
  mkEnv 0 (fun _ _ => (Some (mkError "upload failed"), mkUpload ""))
    (fun _ => None) (fun _ v => Ok v) (fun _ => 0%nat).

(** The store fails every call. *)
Definition env_store_down : Env :=
  mkEnv 0 (fun _ _ => (None, mkUpload url0))
    (fun _ => Some (mkError "connection lost")) (fun _ v => Ok v)
    (fun _ => 0%nat).

(** The store takes every call, and no value casts to another kind. *)
Definition cast_error : Error := mkError "Cast failed".

Definition env_no_casts : Env :=
  mkEnv 0 (fun _ _ => (None, mkUpload url0)) (fun _ => None)
    (fun _ _ => Throw cast_error) (fun _ => 0%nat).

Definition empty_db : Db := mkDb [] [] [] [] [] [] 0.

Definition empty_world : World := mkWorld empty_db [].

Definition plain (b : object) : Request := mkRequest b None 0.

Definition with_file (b : object) : Request :=
  mkRequest b (Some (mkFile [Byte.x89; Byte.x50])) 0.

(** A store holding one Profile, and one holding one Project. *)
Definition ada : document :=
  mkDoc 0 (<["name" := VStr "Ada"]> (<["bio" := VStr "Countess"]> ∅)).

Definition world_with_profile : World :=
  mkWorld (mkDb [ada] [] [] [] [] [] 1) [].

Definition site : document :=
  mkDoc 3 (<["title" := VStr "Site"]> (<["tech" := VArr ["JS"]]> ∅)).

Definition world_with_project : World :=
  mkWorld (mkDb [] [site] [] [] [] [] 4) [].

Definition body_title : object := {["title" := VStr "Site"]}.

Definition body_image : object :=
  <["title" := VStr "Site"]> {["image" := VStr "https://example.org/a.png"]}.

Definition body_tech : object :=
  <["title" := VStr "Site"]> {["tech" := VStr "Go,Rust,C++"]}.

Definition body_spaced_tech : object := {["tech" := VStr "Go, Rust"]}.

Definition lost : Error := mkError "connection lost".

(** Three contact messages, and the documents they are stored as when
    they arrive at times 1, 2 and 3. *)
Definition msg (who : string) : object :=
  <["name" := VStr who]>
    (<["email" := VStr "a@b.c"]> {["message" := VStr "hello"]}).

Definition stored_msg (id : nat) (who : string) (t : Z) : document :=
  mkDoc id (<["createdAt" := VDate t]> (msg who)).

Definition after_A : World :=
  snd (handle (env_ok 1) POST_contact (plain (msg "A")) empty_world).

Definition after_B : World :=
  snd (handle (env_ok 2) POST_contact (plain (msg "B")) after_A).

Definition after_C : World :=
  snd (handle (env_ok 3) POST_contact (plain (msg "C")) after_B).

(** A third message that brings a [createdAt] of its own, older than the
    first two, and the store after it. *)
Definition backdated_msg : object := <["createdAt" := VNum 0]> (msg "C").

Definition after_backdated_C : World :=
  snd (handle (env_dates 3) POST_contact (plain backdated_msg) after_B).

(** The three messages arriving at one reading of the clock. *)
Definition same_time : World :=
  run [(env_ok 1, POST_contact, plain (msg "A"));
       (env_ok 1, POST_contact, plain (msg "B"));
       (env_ok 1, POST_contact, plain (msg "C"))] empty_world.

(** The three messages arriving in a store that holds an older one. *)
Definition after_D_A_B_C : World :=
  run [(env_ok 0, POST_contact, plain (msg "D"));
       (env_ok 1, POST_contact, plain (msg "A"));
       (env_ok 2, POST_contact, plain (msg "B"));
       (env_ok 3, POST_contact, plain (msg "C"))] empty_world.

End Fixtures.
Import Fixtures.

(** ** The rest of the file: connection, the standalone contact handler,
    and the vocabulary of the further properties *)

Module Server.

(** The process-wide connection flag (line 246), with a count of the calls
    made to [mongoose.connect]. *)
Record Process : Type := mkProcess { isConnected : bool; connect_calls : nat }.

(** [await mongoose.connect(process.env.MONGO_URI)]: the call is made, and
    rejects when the environment says so. *)
Definition mongoose_connect (fails : option Error) : M Process unit :=
  fun p =>
    (match fails with
     | Some e => Throw e
     | None => Ok tt
     end,
     mkProcess (isConnected p) (Datatypes.S (connect_calls p))).

Definition set_isConnected (b : bool) : M Process unit :=
  fun p => (Ok tt, mkProcess b (connect_calls p)).

(** [connectDB] (lines 247-252). *)
Definition connectDB (fails : option Error) : M Process unit :=
  fun p =>
    if isConnected p then ret tt p
    else (mongoose_connect fails ;;; set_isConnected true) p.

(** Calls of [connectDB] one after the other, each with the outcome its
    connection attempt would have; a rejection is left to the caller. *)
Definition connect_each (attempts : list (option Error)) (p : Process) : Process :=
  fold_left (fun p fails => snd (connectDB fails p)) attempts p.

(** The attempts up to and including the first that succeeds. *)
Fixpoint attempts_made (attempts : list (option Error)) : nat :=
  match attempts with
  | [] => 0
  | None :: _ => 1
  | Some _ :: rest => Datatypes.S (attempts_made rest)
  end.

Definition succeeds (fails : option Error) : bool :=
  match fails with
  | None => true
  | Some _ => false
  end.

(** POST /api/contact as the standalone server has it (lines 742-752): the
    four members are picked out of the body and only they are handed to
    [Contact.create]. *)
Definition post_api_contact_standalone (env : Env) (req : Request)
    : M World Response :=
  let name := get (body req) "name" in
  let email := get (body req) "email" in
  let phone := get (body req) "phone" in
  let message := get (body req) "message" in
  if negb (truthy name) || negb (truthy email) || negb (truthy message) then
    res_status_json 400 (JObj {["error" := VStr "All fields required"]})
  else
    create env Contact
      (<["name" := name]> (<["email" := email]>
         (<["phone" := phone]> {["message" := message]}))) ;;;
    res_json (JObj (<["success" := VBool true]>
                      {["message" := VStr "Message sent successfully"]})).

(** The collection a route works on. *)
Definition model_of (r : route) : model :=
  match r with
  | POST_profile | GET_profile => Profile
  | POST_projects | GET_projects | PUT_projects_id | DELETE_projects_id =>
      Project
  | POST_experience | GET_experience | PUT_experience_id
  | DELETE_experience_id => Experience
  | POST_certifications | GET_certifications | DELETE_certifications_id =>
      Certification
  | POST_contact | GET_contact => Contact
  | POST_testimonials | PUT_testimonials_id | DELETE_testimonials_id
  | GET_testimonials => Testimonial
  end.

Definition is_get (r : route) : bool :=
  match r with
  | GET_profile | GET_projects | GET_experience | GET_certifications
  | GET_contact | GET_testimonials => true
  | _ => false
  end.

Definition is_delete (r : route) : bool :=
  match r with
  | DELETE_projects_id | DELETE_experience_id | DELETE_certifications_id
  | DELETE_testimonials_id => true
  | _ => false
  end.

(** The update routes that hand [req.body] over as it is. *)
Definition is_plain_put (r : route) : bool :=
  match r with
  | PUT_experience_id | PUT_testimonials_id => true
  | _ => false
  end.

(** The acknowledgement a delete route answers with. *)
Definition deleted_message (r : route) : string :=
  match r with
  | DELETE_projects_id => "Project deleted"
  | DELETE_experience_id => "Experience deleted"
  | _ => "Deleted"
  end.

Definition same_coll (m : model) (d d' : Db) : Prop := coll m d' = coll m d.

(** Identifiers are unique within a collection and below the counter. *)
Definition ids_fresh (d : Db) : Prop :=
  forall m,
    NoDup (map _id (coll m d))
    /\ Forall (fun x => (_id x < next_id d)%nat) (coll m d).

(** The Contact collection has only grown at its end. *)
Definition contacts_grow (d d' : Db) : Prop :=
  exists more, contacts d' = contacts d ++ more.

(** The first Profile is still first, under the same identifier. *)
Definition head_profile_kept (d d' : Db) : Prop :=
  forall p rest,
    profiles d = p :: rest ->
    exists p' rest', profiles d' = p' :: rest' /\ _id p' = _id p.


(** The write [c] fails with [e]: its data does not validate or cast, or
    it does and the store throws. *)
Definition write_fails (env : Env) (c : call) (e : Error) : Prop :=
  match c with
  | CCreate m data =>
      build env (doc_paths (schema_of m)) data = Throw e
      \/ ((exists o, build env (doc_paths (schema_of m)) data = Ok o)
          /\ store_fault env c = Some e)
  | CUpdate m _ data =>
      cast_update env (paths (schema_of m)) data = Throw e
      \/ ((exists upd, cast_update env (paths (schema_of m)) data = Ok upd)
          /\ store_fault env c = Some e)
  | _ => store_fault env c = Some e
  end.


(** [l.join(sep)] *)
Fixpoint join (sep : string) (l : list string) : string :=
  match l with
  | [] => ""
  | [x] => x
  | x :: r => (x ++ sep ++ join sep r)%string
  end.

Fixpoint contains (c : ascii) (s : string) : bool :=
  match s with
  | EmptyString => false
  | String a r => Ascii.eqb a c || contains c r
  end.

(** A tech value that has no [split]: neither absent, nor [null], nor a
    string. *)
Definition has_no_split (v : value) : bool :=
  match v with
  | VUndef | VNull | VStr _ => false
  | _ => true
  end.

(** The create route and the listing route of a collection that is listed
    without a sort. *)
Definition listed_unsorted (m : model) (poster getter : route) : Prop :=
  (m = Project /\ poster = POST_projects /\ getter = GET_projects)
  \/ (m = Experience /\ poster = POST_experience /\ getter = GET_experience)
  \/ (m = Certification /\ poster = POST_certifications
      /\ getter = GET_certifications).

(** The create, update and delete routes of the two collections whose
    handlers pass [req.body] on as it is. *)
Definition plain_crud (m : model) (poster putter deleter : route) : Prop :=
  (m = Experience /\ poster = POST_experience /\ putter = PUT_experience_id
   /\ deleter = DELETE_experience_id)
  \/ (m = Testimonial /\ poster = POST_testimonials
      /\ putter = PUT_testimonials_id /\ deleter = DELETE_testimonials_id).

(** No document of the list has the identifier. *)
Definition absent (id : nat) (l : list document) : Prop :=
  forall x, x ∈ l -> _id x <> id.

End Server.
Export Server.

(** ** Proof automation *)

(** Unfolds a handler down to the store calls. *)
Ltac unfold_handler :=
  unfold handle, app, post_api_profile, get_api_profile, post_api_projects,
    get_api_projects, put_api_projects_id, delete_api_projects_id,
    post_api_experience, get_api_experience, put_api_experience_id,
    delete_api_experience_id, post_api_certifications,
    get_api_certifications, delete_api_certifications_id, post_api_contact,
    get_api_contact, post_api_testimonials, put_api_testimonials_id,
    delete_api_testimonials_id, get_api_testimonials, on_error,
    res_json, res_status_json, try_catch, bind, ret, throw, lift.

(** Membership in a list given by its elements. *)
Ltac in_list :=
  repeat first [apply list_elem_of_here | apply list_elem_of_further].

(** Unfolds the handler of a route, leaving the store operations folded. *)
Ltac unfold_routes :=
  unfold app, post_api_profile, get_api_profile, post_api_projects,
    get_api_projects, put_api_projects_id, delete_api_projects_id,
    post_api_experience, get_api_experience, put_api_experience_id,
    delete_api_experience_id, post_api_certifications,
    get_api_certifications, delete_api_certifications_id, post_api_contact,
    get_api_contact, post_api_testimonials, put_api_testimonials_id,
    delete_api_testimonials_id, get_api_testimonials, on_error, res_json,
    res_status_json.

(** ** The embedding on concrete inputs *)

Example split_languages : split "," "Go,Rust,C++" = ["Go"; "Rust"; "C++"].
Proof. reflexivity. Qed.

Example split_empty : split "," "" = [""].
Proof. reflexivity. Qed.

Example split_keeps_empty_pieces : split "," "a,,b," = ["a"; ""; "b"; ""].
Proof. reflexivity. Qed.

Example trim_both_ends : trim "  Rust " = "Rust".
Proof. reflexivity. Qed.

Example truthy_values :
  map truthy [VUndef; VNull; VStr ""; VNum 0; VBool false; VStr "0"; VArr []]
  = [false; false; false; false; false; true; true].
Proof. reflexivity. Qed.

Example tech_of_a_number_throws :
  tech_split {["tech" := VNum 3]}
  = Throw (mkError "req.body.tech?.split is not a function").
Proof. reflexivity. Qed.

(** A second Profile write updates the Profile the first one created. *)
Example two_profile_writes :
  profiles (db (run [(env_ok 1, POST_profile, plain {["name" := VStr "Ada"]});
                     (env_ok 2, POST_profile, with_file {["bio" := VStr "x"]})]
                  empty_world))
  = [mkDoc 0 (<["name" := VStr "Ada"]>
                (<["bio" := VStr "x"]> {["photo" := VStr url0]}))].
Proof. vm_compute. reflexivity. Qed.

(** A bad tech value is caught after the upload and before the store. *)
Example bad_tech_is_answered :
  handle (env_ok 1) POST_projects (with_file {["tech" := VNum 3]}) empty_world
  = (Responded (failure (mkError "req.body.tech?.split is not a function")),
     empty_world).
Proof. reflexivity. Qed.

(** ** Basic facts about the store *)

Section StoreFacts.
Variable env : Env.

Lemma store_call_accepted c w :
  accepts env c -> store_call env c w = (Ok tt, logged c w).
Proof. unfold accepts, store_call. intros ->. reflexivity. Qed.

Lemma store_call_faulted c e w :
  store_fault env c = Some e -> store_call env c w = (Throw e, logged c w).
Proof. unfold store_call. intros ->. reflexivity. Qed.

Lemma store_call_db c w : db (snd (store_call env c w)) = db w.
Proof. unfold store_call. destruct (store_fault env c); reflexivity. Qed.

Lemma store_call_log c w :
  store_log (snd (store_call env c w)) = store_log w ++ [c].
Proof. unfold store_call. destruct (store_fault env c); reflexivity. Qed.
End StoreFacts.

Lemma coll_set_coll m l d : coll m (set_coll m l d) = l.
Proof. destruct m; reflexivity. Qed.

Lemma coll_set_coll_ne m m' l d : m <> m' -> coll m' (set_coll m l d) = coll m' d.
Proof. destruct m, m'; intros H; try reflexivity; contradiction. Qed.

Lemma coll_fresh m d : coll m (fresh d) = coll m d.
Proof. destruct m; reflexivity. Qed.

(** ** The store operations, step by step *)

Section Operations.
Variable env : Env.

Lemma findOne_run m w :
  findOne env m w
  = match store_fault env (CFindOne m) with
    | Some e => (Throw e, logged (CFindOne m) w)
    | None => (Ok (head (coll m (db w))), logged (CFindOne m) w)
    end.
Proof.
  unfold findOne, bind, store_call.
  destruct (store_fault env (CFindOne m)); reflexivity.
Qed.

Lemma find_run m w :
  find env m w
  = match store_fault env (CFind m) with
    | Some e => (Throw e, logged (CFind m) w)
    | None => (Ok (scan env (coll m (db w))), logged (CFind m) w)
    end.
Proof.
  unfold find, bind, store_call.
  destruct (store_fault env (CFind m)); reflexivity.
Qed.

Lemma find_sorted_run m w :
  find_sorted env m w
  = match store_fault env (CFindSorted m) with
    | Some e => (Throw e, logged (CFindSorted m) w)
    | None =>
        (Ok (sort_createdAt_desc (scan env (coll m (db w)))),
         logged (CFindSorted m) w)
    end.
Proof.
  unfold find_sorted, bind, store_call.
  destruct (store_fault env (CFindSorted m)); reflexivity.
Qed.

Lemma create_run m data w :
  create env m data w
  = match build env (doc_paths (schema_of m)) data with
    | Throw e => (Throw e, logged (CCreate m data) w)
    | Ok o =>
        match store_fault env (CCreate m data) with
        | Some e => (Throw e, logged (CCreate m data) w)
        | None =>
            let doc :=
              mkDoc (next_id (db w)) (stamp (now env) (schema_of m) o) in
            (Ok doc,
             mkWorld (fresh (set_coll m (coll m (db w) ++ [doc]) (db w)))
               (store_log w ++ [CCreate m data]))
        end
    end.
Proof.
  unfold create, bind, record_call, reach, lift.
  destruct (build env (doc_paths (schema_of m)) data); [| reflexivity].
  simpl. destruct (store_fault env (CCreate m data)); reflexivity.
Qed.

Lemma findByIdAndUpdate_run m id data w :
  findByIdAndUpdate env m id data w
  = match cast_update env (paths (schema_of m)) data with
    | Throw e => (Throw e, logged (CUpdate m id data) w)
    | Ok upd =>
        match store_fault env (CUpdate m id data) with
        | Some e => (Throw e, logged (CUpdate m id data) w)
        | None =>
            match update_first id (set_fields upd) (coll m (db w)) with
            | Some (x, l) =>
                (Ok (Some x),
                 mkWorld (set_coll m l (db w))
                   (store_log w ++ [CUpdate m id data]))
            | None => (Ok None, logged (CUpdate m id data) w)
            end
        end
    end.
Proof.
  unfold findByIdAndUpdate, bind, record_call, reach, lift.
  destruct (cast_update env (paths (schema_of m)) data); [| reflexivity].
  simpl. destruct (store_fault env (CUpdate m id data)); [reflexivity |].
  simpl.
  destruct (update_first id (set_fields a) (coll m (db w))) as [[x l] |];
    reflexivity.
Qed.

(** Whatever becomes of it, a create or an update is recorded, once. *)
Lemma create_recorded m data w :
  store_log (snd (create env m data w)) = store_log w ++ [CCreate m data].
Proof.
  rewrite create_run.
  destruct (build env _ _); [| reflexivity].
  destruct (store_fault env _); reflexivity.
Qed.

Lemma findByIdAndUpdate_recorded m id data w :
  store_log (snd (findByIdAndUpdate env m id data w))
  = store_log w ++ [CUpdate m id data].
Proof.
  rewrite findByIdAndUpdate_run.
  destruct (cast_update env _ _); [| reflexivity].
  destruct (store_fault env _); [reflexivity |].
  destruct (update_first _ _ _) as [[x l] |]; reflexivity.
Qed.

Lemma findByIdAndDelete_run m id w :
  findByIdAndDelete env m id w
  = match store_fault env (CDelete m id) with
    | Some e => (Throw e, logged (CDelete m id) w)
    | None =>
        (Ok tt,
         mkWorld (set_coll m (remove_first id (coll m (db w))) (db w))
           (store_log w ++ [CDelete m id]))
    end.
Proof.
  unfold findByIdAndDelete, bind, store_call.
  destruct (store_fault env (CDelete m id)); reflexivity.
Qed.

(** The upload block never touches the world. *)
Lemma attached_run req folder w :
  attached env req folder w
  = match file req with
    | Some f =>
        match cloud env (buffer f) folder with
        | (Some e, _) => (Throw e, w)
        | (None, r) => (Ok (VStr (secure_url r)), w)
        end
    | None => (Ok VUndef, w)
    end.
Proof.
  unfold attached, uploadToCloudinary, bind, ret, throw.
  destruct (file req) as [f |]; [| reflexivity].
  destruct (cloud env (buffer f) folder) as [[e |] r]; reflexivity.
Qed.
End Operations.

(** ** Upload failure *)

(** C1.  On each of the four routes that take an attachment (Profile write,
    Project create and update, Certification create), when the request
    carries a file and the upload promise rejects with [e], the handler
    answers 500 with [e]'s message and the world is left exactly as it was:
    no store call is recorded and no collection changes. *)
Theorem upload_failure_aborts env r req f folder e res w :
  upload_folder r = Some folder ->
  file req = Some f ->
  cloud env (buffer f) folder = (Some e, res) ->
  handle env r req w = (Responded (failure e), w).
Proof.
  intros Hr Hf Hc.
  destruct r; try discriminate; injection Hr as <-;
    unfold_handler; unfold attached, uploadToCloudinary;
    rewrite Hf, Hc; reflexivity.
Qed.

Lemma upload_failure_aborts_witness :
  handle env_upload_down POST_projects (with_file ∅) empty_world
  = (Responded (failure (mkError "upload failed")), empty_world).
Proof.
  apply (upload_failure_aborts env_upload_down POST_projects (with_file ∅)
           (mkFile [Byte.x89; Byte.x50]) "portfolio/projects"
           (mkError "upload failed") (mkUpload ""));
    reflexivity.
Defined.

(** ** Contact validation *)

Lemma empty_or_missing_falsy v : empty_or_missing v -> truthy v = false.
Proof. intros [-> | [-> | ->]]; reflexivity. Qed.

Lemma nonempty_string_truthy v : nonempty_string v -> truthy v = true.
Proof.
  intros (s & -> & Hs). simpl.
  destruct (String.eqb_spec s ""); [contradiction | reflexivity].
Qed.

(** C7.  A Contact create in which name, email or message is missing, null
    or the empty string is answered 400 and leaves the world as it was, the
    store never being called; when the three are non-empty strings the
    handler calls [Contact.create] with the request body. *)
Theorem contact_requires_three_fields env req w :
  (empty_or_missing (get (body req) "name")
   \/ empty_or_missing (get (body req) "email")
   \/ empty_or_missing (get (body req) "message") ->
   handle env POST_contact req w
   = (Responded (mkResponse 400 (JObj {["error" := VStr "All fields required"]})),
      w))
  /\ (nonempty_string (get (body req) "name") ->
      nonempty_string (get (body req) "email") ->
      nonempty_string (get (body req) "message") ->
      store_log (snd (handle env POST_contact req w))
      = store_log w ++ [CCreate Contact (body req)]).
Proof.
  split.
  - intros H. unfold_handler.
    assert (negb (truthy (get (body req) "name"))
            || negb (truthy (get (body req) "email"))
            || negb (truthy (get (body req) "message")) = true) as ->.
    { destruct H as [H | [H | H]]; apply empty_or_missing_falsy in H;
        rewrite H; simpl; rewrite ?orb_true_r; reflexivity. }
    reflexivity.
  - intros Hn He Hm. unfold_handler.
    rewrite (nonempty_string_truthy _ Hn), (nonempty_string_truthy _ He),
      (nonempty_string_truthy _ Hm). simpl.
    pose proof (create_recorded env Contact (body req) w) as Hl.
    destruct (create env Contact (body req) w) as [[d | e] w1]; exact Hl.
Qed.

Lemma contact_requires_three_fields_witness :
  handle (env_ok 5) POST_contact
    (plain (<["name" := VStr "Ann"]> (<["email" := VStr ""]>
              (<["message" := VStr "hello"]> ∅)))) empty_world
  = (Responded (mkResponse 400 (JObj {["error" := VStr "All fields required"]})),
     empty_world)
  /\ store_log (snd (handle (env_ok 5) POST_contact
       (plain (<["name" := VStr "Ann"]> (<["email" := VStr "a@b.c"]>
                 (<["message" := VStr "hello"]> ∅)))) empty_world))
     = [CCreate Contact (<["name" := VStr "Ann"]> (<["email" := VStr "a@b.c"]>
                           (<["message" := VStr "hello"]> ∅)))].
Proof.
  split.
  - apply (proj1 (contact_requires_three_fields (env_ok 5)
                    (plain (<["name" := VStr "Ann"]> (<["email" := VStr ""]>
                              (<["message" := VStr "hello"]> ∅))))
                    empty_world)).
    right; left. right; right. reflexivity.
  - refine (proj2 (contact_requires_three_fields (env_ok 5)
                     (plain (<["name" := VStr "Ann"]> (<["email" := VStr "a@b.c"]>
                               (<["message" := VStr "hello"]> ∅))))
                     empty_world) _ _ _);
      (eexists; split; [reflexivity | discriminate]).
Defined.

(** ** Reading the Profile *)

(** C10.  With no Profile stored and the store answering the query, GET
    /api/profile answers 200 with [null]; the collections are those of
    before, the query being the only thing recorded. *)
Theorem get_profile_absent env req w :
  profiles (db w) = [] ->
  accepts env (CFindOne Profile) ->
  handle env GET_profile req w
  = (Responded (ok JNull), logged (CFindOne Profile) w)
  /\ db (snd (handle env GET_profile req w)) = db w.
Proof.
  intros Hp Ha.
  assert (handle env GET_profile req w
          = (Responded (ok JNull), logged (CFindOne Profile) w)) as E.
  { unfold_handler. unfold findOne, bind, read_db, ret.
    rewrite (store_call_accepted _ _ _ Ha). simpl. rewrite Hp. reflexivity. }
  rewrite E. split; reflexivity.
Qed.

Lemma get_profile_absent_witness :
  handle (env_ok 0) GET_profile (plain ∅) empty_world
  = (Responded (ok JNull), logged (CFindOne Profile) empty_world)
  /\ db (snd (handle (env_ok 0) GET_profile (plain ∅) empty_world))
     = db empty_world.
Proof.
  apply (get_profile_absent (env_ok 0) (plain ∅) empty_world); reflexivity.
Defined.

(** ** Store failures *)

(** The handlers that wrap their work in [try]/[catch] answer whatever
    happens inside: a thrown error becomes the 500 response. *)
Lemma caught_routes_always_answer env r req w folder :
  upload_folder r = Some folder ->
  exists resp, fst (handle env r req w) = Responded resp.
Proof.
  intros Hr.
  destruct r; try discriminate;
    unfold handle, app, post_api_profile, post_api_projects,
      put_api_projects_id, post_api_certifications, try_catch;
    match goal with
    | |- context [match ?c w with _ => _ end] =>
        destruct (c w) as [[resp | e] w']
    end; simpl; eauto.
Qed.

Lemma caught_store_failure_profile env req w e :
  file req = None ->
  store_fault env (CFindOne Profile) = Some e ->
  handle env POST_profile req w
  = (Responded (failure e), logged (CFindOne Profile) w).
Proof.
  intros Hf He. unfold_handler. unfold attached. rewrite Hf.
  unfold findOne, bind, ret.
  rewrite (store_call_faulted _ _ _ _ He). reflexivity.
Qed.

(** The handlers without [try]/[catch] let a failing store call reject
    their promise. *)
Lemma uncaught_store_failure env req w e :
  (forall o,
      build env (doc_paths (schema_of Experience)) (body req) = Ok o ->
      store_fault env (CCreate Experience (body req)) = Some e ->
      handle env POST_experience req w
      = (Rejected e, logged (CCreate Experience (body req)) w))
  /\ (forall o,
         build env (doc_paths (schema_of Testimonial)) (body req) = Ok o ->
         store_fault env (CCreate Testimonial (body req)) = Some e ->
         handle env POST_testimonials req w
         = (Rejected e, logged (CCreate Testimonial (body req)) w))
  /\ (forall upd,
         cast_update env (paths (schema_of Testimonial)) (body req) = Ok upd ->
         store_fault env (CUpdate Testimonial (params_id req) (body req))
         = Some e ->
         handle env PUT_testimonials_id req w
         = (Rejected e,
            logged (CUpdate Testimonial (params_id req) (body req)) w)).
Proof.
  repeat split; intros o Ho He; unfold_handler;
    rewrite ?create_run, ?findByIdAndUpdate_run, Ho, He; reflexivity.
Qed.

(** C9.  The claim fails on the handlers written without [try]/[catch]:
    when the store call of POST /api/experience, POST /api/testimonials or
    PUT /api/testimonials/:id throws, the handler's promise rejects with the
    error and the handler writes no response, so that it does not answer
    500 with the error's message. *)
Theorem uncaught_store_failure_is_not_answered :
  fst (handle env_store_down POST_experience (plain body_title) empty_world)
  = Rejected lost
  /\ fst (handle env_store_down POST_testimonials (plain body_title)
            empty_world)
     = Rejected lost
  /\ fst (handle env_store_down PUT_testimonials_id (plain body_title)
            empty_world)
     = Rejected lost
  /\ forall r,
       In r [POST_experience; POST_testimonials; PUT_testimonials_id] ->
       fst (handle env_store_down r (plain body_title) empty_world)
       <> Responded (failure lost).
Proof.
  cbv zeta. repeat split; try reflexivity.
  intros r [<- | [<- | [<- | []]]]; discriminate.
Qed.

(** ** Casting along a schema *)

Lemma set_defined_lookup_ne k v (o : object) k' :
  k <> k' -> set_defined k v o !! k' = o !! k'.
Proof.
  intros Hne. destruct v; simpl; try reflexivity;
    apply lookup_insert_ne; exact Hne.
Qed.

Lemma set_defined_lookup_eq k v (o : object) :
  set_defined k v o !! k = if defined v then Some v else o !! k.
Proof. destruct v; simpl; try reflexivity; apply lookup_insert_eq. Qed.

Section CastPaths.
Variable env : Env.
Variable dflt : spath -> value.

Lemma cast_paths_cons p rest data o :
  cast_paths env dflt (p :: rest) data = Ok o ->
  exists v' acc,
    member env dflt p data = Ok v' /\ cast_paths env dflt rest data = Ok acc
    /\ o = set_defined (pname p) v' acc.
Proof.
  simpl.
  destruct (member env dflt p data) as [v' |]; [| discriminate].
  destruct (cast_paths env dflt rest data) as [acc |]; [| discriminate].
  intros [= <-]. exists v', acc. auto.
Qed.

(** Strict mode: nothing outside the schema is stored. *)
Lemma cast_paths_notin ps data o k :
  cast_paths env dflt ps data = Ok o ->
  k ∉ map pname ps ->
  o !! k = None.
Proof.
  revert o. induction ps as [| p rest IH]; intros o H Hk.
  - injection H as <-. apply lookup_empty.
  - apply cast_paths_cons in H as (v' & acc & _ & Hr & ->).
    simpl in Hk. apply not_elem_of_cons in Hk as [Hne Hk].
    rewrite set_defined_lookup_ne by congruence. eauto.
Qed.

(** A declared path holds what its member of [data] casts to. *)
Lemma cast_paths_in ps data o p :
  NoDup (map pname ps) ->
  cast_paths env dflt ps data = Ok o ->
  p ∈ ps ->
  exists v', member env dflt p data = Ok v'
             /\ o !! pname p = if defined v' then Some v' else None.
Proof.
  revert o. induction ps as [| q rest IH]; intros o Hnd H Hin.
  - apply elem_of_nil in Hin as [].
  - apply cast_paths_cons in H as (v' & acc & Hm & Hr & ->).
    simpl in Hnd. apply NoDup_cons in Hnd as [Hq Hnd].
    apply elem_of_cons in Hin as [-> | Hin].
    + exists v'. split; [exact Hm |].
      rewrite set_defined_lookup_eq.
      destruct (defined v'); [reflexivity |].
      eapply cast_paths_notin; eauto.
    + destruct (IH acc Hnd Hr Hin) as (w' & Hw & Hl).
      exists w'. split; [exact Hw |].
      rewrite set_defined_lookup_ne; [exact Hl |].
      intros E. apply Hq. rewrite E.
      apply list_elem_of_fmap. exists p. auto.
Qed.

(** A member that the data leaves [undefined] casts to the default. *)
Lemma member_undefined p data :
  get data (pname p) = VUndef -> member env dflt p data = Ok (dflt p).
Proof. unfold member. intros ->. reflexivity. Qed.
End CastPaths.

(** An update sets nothing for a member the data leaves [undefined]. *)
Lemma cast_update_untouched env ps data upd k :
  cast_update env ps data = Ok upd ->
  get data k = VUndef ->
  upd !! k = None.
Proof.
  unfold cast_update. revert upd.
  induction ps as [| p rest IH]; intros upd H Hk.
  - injection H as <-. apply lookup_empty.
  - apply cast_paths_cons in H as (v' & acc & Hm & Hr & ->).
    destruct (decide (pname p = k)) as [E | Hne].
    + subst k. rewrite member_undefined in Hm by exact Hk.
      injection Hm as <-. simpl. eauto.
    + rewrite set_defined_lookup_ne by exact Hne. eauto.
Qed.

Lemma schema_names_distinct m : NoDup (map pname (doc_paths (schema_of m))).
Proof. destruct m; compute_done. Qed.

Lemma update_names_distinct m : NoDup (map pname (paths (schema_of m))).
Proof. destruct m; compute_done. Qed.

Lemma update_first_length id f l x l' :
  update_first id f l = Some (x, l') -> length l' = length l.
Proof.
  revert x l'. induction l as [| y r IH]; intros x l' H; simpl in H.
  - discriminate.
  - destruct (Nat.eqb (_id y) id).
    + injection H as _ <-. reflexivity.
    + destruct (update_first id f r) as [[z r'] |] eqn:E; [| discriminate].
      injection H as _ <-. simpl. f_equal. exact (IH _ _ eq_refl).
Qed.

Lemma update_first_head id f p rest :
  _id p = id -> update_first id f (p :: rest) = Some (f p, f p :: rest).
Proof. intros <-. simpl. rewrite Nat.eqb_refl. reflexivity. Qed.

(** ** A frame rule for computations over the store *)

Section Preserves.
Variable P : Db -> Db -> Prop.
Hypothesis P_refl : forall d, P d d.
Hypothesis P_trans : forall a b c, P a b -> P b c -> P a c.

Lemma preserves_ret {A} (a : A) : preserves P (ret a).
Proof. intros w. apply P_refl. Qed.

Lemma preserves_throw {A} e : preserves P (@throw World A e).
Proof. intros w. apply P_refl. Qed.

Lemma preserves_lift {A} (o : outcome A) : preserves P (lift o).
Proof. intros w. apply P_refl. Qed.

Lemma preserves_bind {A B} (c : M World A) (k : A -> M World B) :
  preserves P c -> (forall a, preserves P (k a)) -> preserves P (bind c k).
Proof.
  intros Hc Hk w. unfold bind. specialize (Hc w).
  destruct (c w) as [[a | e] w1]; simpl in *; [| exact Hc].
  eapply P_trans; [exact Hc | apply Hk].
Qed.

Lemma preserves_try_catch {A} (c : M World A) (h : Error -> M World A) :
  preserves P c -> (forall e, preserves P (h e)) ->
  preserves P (try_catch c h).
Proof.
  intros Hc Hh w. unfold try_catch. specialize (Hc w).
  destruct (c w) as [[a | e] w1]; simpl in *; [exact Hc |].
  eapply P_trans; [exact Hc | apply Hh].
Qed.

Lemma preserves_store_call env c : preserves P (store_call env c).
Proof. intros w. rewrite store_call_db. apply P_refl. Qed.

Lemma preserves_read_db : preserves P read_db.
Proof. intros w. apply P_refl. Qed.

Lemma preserves_attached env req folder : preserves P (attached env req folder).
Proof.
  intros w. rewrite attached_run.
  destruct (file req) as [f |]; [| apply P_refl].
  destruct (cloud env (buffer f) folder) as [[e |] r]; apply P_refl.
Qed.

Lemma preserves_findOne env m : preserves P (findOne env m).
Proof.
  intros w. rewrite findOne_run.
  destruct (store_fault env (CFindOne m)); apply P_refl.
Qed.

Lemma preserves_find env m : preserves P (find env m).
Proof.
  intros w. rewrite find_run.
  destruct (store_fault env (CFind m)); apply P_refl.
Qed.

Lemma preserves_find_sorted env m : preserves P (find_sorted env m).
Proof.
  intros w. rewrite find_sorted_run.
  destruct (store_fault env (CFindSorted m)); apply P_refl.
Qed.
End Preserves.

(** Writes to another collection leave the Profile collection alone. *)
Lemma create_same_profiles env m data :
  m <> Profile -> preserves same_profiles (create env m data).
Proof.
  intros Hm w. rewrite create_run. unfold same_profiles.
  destruct (build env (doc_paths (schema_of m)) data); [| reflexivity].
  destruct (store_fault env (CCreate m data)); [reflexivity |].
  destruct m; try contradiction; reflexivity.
Qed.

Lemma update_same_profiles env m id data :
  m <> Profile -> preserves same_profiles (findByIdAndUpdate env m id data).
Proof.
  intros Hm w. rewrite findByIdAndUpdate_run. unfold same_profiles.
  destruct (cast_update env (paths (schema_of m)) data) as [upd |];
    [| reflexivity].
  destruct (store_fault env (CUpdate m id data)); [reflexivity |].
  destruct (update_first id (set_fields upd) (coll m (db w))) as [[x l] |];
    [| reflexivity].
  destruct m; try contradiction; reflexivity.
Qed.

Lemma delete_same_profiles env m id :
  m <> Profile -> preserves same_profiles (findByIdAndDelete env m id).
Proof.
  intros Hm w. rewrite findByIdAndDelete_run. unfold same_profiles.
  destruct (store_fault env (CDelete m id)); [reflexivity |].
  destruct m; try contradiction; reflexivity.
Qed.

Lemma same_profiles_refl d : same_profiles d d.
Proof. reflexivity. Qed.

Lemma same_profiles_trans a b c :
  same_profiles a b -> same_profiles b c -> same_profiles a c.
Proof. unfold same_profiles. congruence. Qed.

(** Every route but the Profile write leaves the Profile collection as it
    is. *)
Lemma other_routes_same_profiles env r req :
  r <> POST_profile -> preserves same_profiles (app env r req).
Proof.
  pose proof same_profiles_refl as R. pose proof same_profiles_trans as T.
  intros Hr.
  destruct r; try contradiction; simpl;
    unfold get_api_profile, post_api_projects, get_api_projects,
      put_api_projects_id, delete_api_projects_id, post_api_experience,
      get_api_experience, put_api_experience_id, delete_api_experience_id,
      post_api_certifications, get_api_certifications,
      delete_api_certifications_id, post_api_contact, get_api_contact,
      post_api_testimonials, put_api_testimonials_id,
      delete_api_testimonials_id, get_api_testimonials, on_error, res_json,
      res_status_json;
    try match goal with
        | |- context [if ?b then _ else _] => destruct b
        end;
    repeat first
      [ apply (preserves_attached _ R)
      | apply (preserves_findOne _ R)
      | apply (preserves_find _ R)
      | apply (preserves_find_sorted _ R)
      | apply create_same_profiles; discriminate
      | apply update_same_profiles; discriminate
      | apply delete_same_profiles; discriminate
      | apply (preserves_ret _ R)
      | apply (preserves_lift _ R)
      | apply (preserves_try_catch _ T); [| intros ?]
      | apply (preserves_bind _ T); [| intros ?] ].
Qed.

(** ** The Profile write *)

(** Once the upload block has given [photo] and the store has answered
    [findOne], the Profile write is one update of the first document or one
    create, and its outcome is turned into the response. *)
Lemma post_profile_run env req w photo :
  attached env req "portfolio/profile" w = (Ok photo, w) ->
  accepts env (CFindOne Profile) ->
  handle env POST_profile req w
  = let data := profile_data photo (body req) in
    let w1 := logged (CFindOne Profile) w in
    match profiles (db w) with
    | p :: _ =>
        match findByIdAndUpdate env Profile (_id p) data w1 with
        | (Ok r, w') => (Responded (ok (json_of r)), w')
        | (Throw e, w') => (Responded (failure e), w')
        end
    | [] =>
        match create env Profile data w1 with
        | (Ok d, w') => (Responded (ok (JDoc d)), w')
        | (Throw e, w') => (Responded (failure e), w')
        end
    end.
Proof.
  intros Hat Ha. unfold_handler. rewrite Hat, findOne_run, Ha. simpl.
  destruct (profiles (db w)) as [| p rest]; simpl.
  - destruct (create env Profile (profile_data photo (body req))
                (logged (CFindOne Profile) w)) as [[d | e] w']; reflexivity.
  - destruct (findByIdAndUpdate env Profile (_id p)
                (profile_data photo (body req))
                (logged (CFindOne Profile) w)) as [[r | e] w']; reflexivity.
Qed.

(** The Profile write never makes a second Profile. *)
Lemma post_profile_singleton env req w :
  singleton_profile w -> singleton_profile (snd (handle env POST_profile req w)).
Proof.
  unfold singleton_profile. intros Hs.
  destruct (attached env req "portfolio/profile" w) as [[photo | e] w0] eqn:Hat.
  - assert (w0 = w) as ->.
    { rewrite attached_run in Hat. destruct (file req) as [f |].
      - destruct (cloud env (buffer f) "portfolio/profile") as [[e |] r];
          congruence.
      - congruence. }
    destruct (store_fault env (CFindOne Profile)) as [e |] eqn:Hf.
    + unfold_handler. rewrite Hat, findOne_run, Hf. simpl. exact Hs.
    + rewrite (post_profile_run _ _ _ _ Hat Hf). cbv zeta. clear Hf.
      destruct (profiles (db w)) as [| p rest] eqn:Hp.
      * rewrite create_run.
        destruct (build env _ _); simpl; [| rewrite Hp; simpl; lia].
        destruct (store_fault env _); simpl; rewrite Hp; simpl; lia.
      * rewrite findByIdAndUpdate_run.
        destruct (cast_update env _ _) as [upd |]; simpl;
          [| rewrite Hp; exact Hs].
        destruct (store_fault env _); simpl; [rewrite Hp; exact Hs |].
        simpl coll. rewrite Hp.
        rewrite (update_first_head _ _ p rest eq_refl). simpl. exact Hs.
  - unfold_handler. rewrite Hat. simpl.
    rewrite attached_run in Hat. destruct (file req) as [f |].
    + destruct (cloud env (buffer f) "portfolio/profile") as [[e' |] r];
        [| discriminate].
      injection Hat as _ <-. exact Hs.
    + discriminate.
Qed.

Lemma handle_singleton env r req w :
  singleton_profile w -> singleton_profile (snd (handle env r req w)).
Proof.
  destruct (decide (r = POST_profile)) as [-> | Hr].
  - apply post_profile_singleton.
  - unfold singleton_profile. intros Hs.
    pose proof (other_routes_same_profiles env r req Hr w) as H.
    unfold same_profiles in H. unfold handle.
    destruct (app env r req w) as [[resp | e] w']; simpl in *;
      rewrite H; exact Hs.
Qed.

Lemma run_singleton steps w :
  singleton_profile w -> singleton_profile (run steps w).
Proof.
  unfold run. revert w.
  induction steps as [| [[env r] req] rest IH]; intros w Hs; simpl.
  - exact Hs.
  - apply IH. apply handle_singleton. exact Hs.
Qed.

Lemma attached_no_file env req folder w photo :
  attached env req folder w = (Ok photo, w) ->
  file req = None -> photo = VUndef.
Proof. rewrite attached_run. intros H Hf. rewrite Hf in H. congruence. Qed.

(** C5.  Every request, on every route and in every environment, takes a
    store with at most one Profile to a store with at most one Profile, and
    so does every sequence of requests served one after the other.  The
    Profile write, once the store has answered [findOne], makes exactly one
    more call: an update of the existing Profile under its identifier when
    there is one, which leaves one Profile with that identifier in place, and
    a create when there is none, after which the created Profile is the only
    one. *)
Theorem profile_singleton_invariant :
  (forall env r req w,
      singleton_profile w -> singleton_profile (snd (handle env r req w)))
  /\ (forall steps w, singleton_profile w -> singleton_profile (run steps w))
  /\ (forall env req w photo p,
         attached env req "portfolio/profile" w = (Ok photo, w) ->
         accepts env (CFindOne Profile) ->
         profiles (db w) = [p] ->
         let w' := snd (handle env POST_profile req w) in
         store_log w'
         = store_log w
           ++ [CFindOne Profile;
               CUpdate Profile (_id p) (profile_data photo (body req))]
         /\ exists p', profiles (db w') = [p'] /\ _id p' = _id p)
  /\ (forall env req w photo o,
         attached env req "portfolio/profile" w = (Ok photo, w) ->
         accepts env (CFindOne Profile) ->
         profiles (db w) = [] ->
         let data := profile_data photo (body req) in
         let w' := snd (handle env POST_profile req w) in
         store_log w' = store_log w ++ [CFindOne Profile; CCreate Profile data]
         /\ (accepts env (CCreate Profile data) ->
             build env (doc_paths (schema_of Profile)) data = Ok o ->
             fst (handle env POST_profile req w)
             = Responded (ok (JDoc (mkDoc (next_id (db w)) o)))
             /\ profiles (db w') = [mkDoc (next_id (db w)) o])).
Proof.
  split; [exact handle_singleton |].
  split; [exact run_singleton |].
  split.
  - intros env req w photo p Hat Ha Hp w'. subst w'.
    rewrite (post_profile_run _ _ _ _ Hat Ha). cbv zeta. rewrite Hp.
    rewrite findByIdAndUpdate_run.
    destruct (cast_update env _ _) as [upd |]; simpl;
      [| rewrite <- app_assoc; eauto].
    destruct (store_fault env (CUpdate _ _ _)); simpl;
      [rewrite <- app_assoc; eauto |].
    simpl coll. rewrite Hp, (update_first_head _ _ p [] eq_refl). simpl.
    rewrite <- app_assoc. eauto.
  - intros env req w photo o Hat Ha Hp data w'. subst data w'.
    rewrite (post_profile_run _ _ _ _ Hat Ha). cbv zeta. rewrite Hp.
    rewrite create_run. split.
    + destruct (build env _ _); simpl;
        [| rewrite <- app_assoc; reflexivity].
      destruct (store_fault env (CCreate _ _)); simpl;
        rewrite <- app_assoc; reflexivity.
    + intros Hc Hb. rewrite Hb, Hc. simpl. rewrite Hp. split; reflexivity.
Qed.

Lemma profile_singleton_invariant_witness :
  singleton_profile empty_world
  /\ singleton_profile
       (snd (handle (env_ok 7) POST_profile
               (plain {["name" := VStr "Ada"]}) empty_world))
  /\ singleton_profile
       (run [(env_ok 7, POST_profile, plain {["name" := VStr "Ada"]});
             (env_ok 8, POST_profile, with_file {["title" := VStr "Eng"]});
             (env_ok 9, GET_profile, plain ∅)] empty_world).
Proof.
  assert (singleton_profile empty_world) as H by (unfold singleton_profile; simpl; lia).
  split; [exact H |].
  split.
  - exact (proj1 profile_singleton_invariant (env_ok 7) POST_profile
             (plain {["name" := VStr "Ada"]}) empty_world H).
  - exact (proj1 (proj2 profile_singleton_invariant) _ empty_world H).
Defined.

(** ** Merge semantics of the Profile write *)

Lemma profile_data_lookup_ne photo (b : object) k :
  k <> "photo" -> profile_data photo b !! k = b !! k.
Proof.
  intros Hk. unfold profile_data, spread_if_truthy.
  destruct (truthy photo); [| reflexivity].
  apply lookup_insert_ne. congruence.
Qed.

(** Updating the first Profile, whether the call goes through or throws,
    leaves it in place under its identifier, with every field that the data
    does not supply as it was. *)
Lemma update_head_profile env data w p rest :
  profiles (db w) = p :: rest ->
  exists p',
    profiles (db (snd (findByIdAndUpdate env Profile (_id p) data w)))
    = p' :: rest
    /\ _id p' = _id p
    /\ (forall k, get data k = VUndef -> fields p' !! k = fields p !! k).
Proof.
  intros Hp. rewrite findByIdAndUpdate_run.
  destruct (cast_update env _ _) as [upd |] eqn:Hc; [| exists p; simpl; auto].
  destruct (store_fault env _); [exists p; simpl; auto |].
  simpl coll. rewrite Hp, (update_first_head _ _ p rest eq_refl).
  exists (set_fields upd p). simpl. repeat split.
  intros k Hk. apply lookup_union_r.
  exact (cast_update_untouched _ _ _ _ _ Hc Hk).
Qed.

Lemma profile_data_unsupplied req photo k :
  body req !! k = None ->
  (k = "photo" -> photo = VUndef) ->
  get (profile_data photo (body req)) k = VUndef.
Proof.
  intros Hk Hph. unfold get.
  destruct (decide (k = "photo")) as [-> | Hne].
  - rewrite (Hph eq_refl). unfold profile_data, spread_if_truthy. simpl.
    rewrite Hk. reflexivity.
  - rewrite profile_data_lookup_ne by exact Hne. rewrite Hk. reflexivity.
Qed.

(** C6.  A Profile write served while a Profile exists leaves that Profile
    in its place under its identifier, and every field that the request does
    not supply (no member of that name in the body and, for [photo], no
    file) keeps its previous value, in every environment.  When the upload
    block, the store and the casts go through, the answer is the updated
    Profile, in which every field that the update sets has the new value. *)
Theorem profile_write_merges env req w p rest :
  profiles (db w) = p :: rest ->
  (exists p',
      profiles (db (snd (handle env POST_profile req w))) = p' :: rest
      /\ _id p' = _id p
      /\ (forall k, body req !! k = None ->
                    (k = "photo" -> file req = None) ->
                    fields p' !! k = fields p !! k))
  /\ (forall photo upd,
         attached env req "portfolio/profile" w = (Ok photo, w) ->
         accepts env (CFindOne Profile) ->
         accepts env (CUpdate Profile (_id p) (profile_data photo (body req))) ->
         cast_update env (paths (schema_of Profile))
           (profile_data photo (body req)) = Ok upd ->
         exists p' w',
           handle env POST_profile req w = (Responded (ok (JDoc p')), w')
           /\ profiles (db w') = p' :: rest
           /\ _id p' = _id p
           /\ (forall k v, upd !! k = Some v -> fields p' !! k = Some v)).
Proof.
  intros Hp. split.
  - destruct (attached env req "portfolio/profile" w) as [[photo | e] w0] eqn:Hat.
    + assert (w0 = w) as ->.
      { rewrite attached_run in Hat. destruct (file req) as [f |].
        - destruct (cloud env (buffer f) "portfolio/profile") as [[e |] r];
            congruence.
        - congruence. }
      destruct (store_fault env (CFindOne Profile)) as [e |] eqn:Hf.
      * unfold_handler. rewrite Hat, findOne_run, Hf. simpl.
        exists p. auto.
      * rewrite (post_profile_run _ _ _ _ Hat Hf). cbv zeta. rewrite Hp.
        destruct (update_head_profile env (profile_data photo (body req))
                    (logged (CFindOne Profile) w) p rest Hp)
          as (p' & Hp' & Hid & Hfr).
        exists p'.
        split.
        { destruct (findByIdAndUpdate env Profile _ _ _) as [[r | e] w'];
            exact Hp'. }
        split; [exact Hid |].
        intros k Hk Hph. apply Hfr. apply profile_data_unsupplied; [exact Hk |].
        intros Ek. exact (attached_no_file _ _ _ _ _ Hat (Hph Ek)).
    + unfold_handler. rewrite Hat. simpl.
      rewrite attached_run in Hat. destruct (file req) as [f |].
      * destruct (cloud env (buffer f) "portfolio/profile") as [[e' |] r];
          [| discriminate].
        injection Hat as _ <-. exists p. auto.
      * discriminate.
  - intros photo upd Hat Ha Hu Hc.
    rewrite (post_profile_run _ _ _ _ Hat Ha). cbv zeta. rewrite Hp.
    rewrite findByIdAndUpdate_run, Hc, Hu. simpl coll. rewrite Hp.
    rewrite (update_first_head _ _ p rest eq_refl).
    eexists. eexists. split; [reflexivity |]. simpl.
    split; [reflexivity |]. split; [reflexivity |].
    intros k v Hk. apply lookup_union_Some_l. exact Hk.
Qed.

Lemma profile_write_merges_witness :
  (exists p',
      profiles (db (snd (handle (env_ok 7) POST_profile (plain body_title)
                           world_with_profile))) = p' :: []
      /\ _id p' = _id ada
      /\ (forall k, body (plain body_title) !! k = None ->
                    (k = "photo" -> file (plain body_title) = None) ->
                    fields p' !! k = fields ada !! k))
  /\ (exists p' w',
         handle (env_ok 7) POST_profile (plain body_title) world_with_profile
         = (Responded (ok (JDoc p')), w')
         /\ profiles (db w') = p' :: []
         /\ _id p' = _id ada
         /\ (forall k v, ({["title" := VStr "Site"]} : object) !! k = Some v ->
                         fields p' !! k = Some v)).
Proof.
  pose proof (profile_write_merges (env_ok 7) (plain body_title)
                world_with_profile ada [] eq_refl) as [H1 H2].
  split; [exact H1 |].
  exact (H2 VUndef {["title" := VStr "Site"]} eq_refl eq_refl eq_refl eq_refl).
Defined.

(** ** The Project and Certification writes *)

Lemma post_projects_run env req w image tech :
  attached env req "portfolio/projects" w = (Ok image, w) ->
  tech_split (body req) = Ok tech ->
  handle env POST_projects req w
  = match create env Project (project_create_data tech image (body req)) w with
    | (Ok d, w') => (Responded (ok (JDoc d)), w')
    | (Throw e, w') => (Responded (failure e), w')
    end.
Proof.
  intros Hat Ht. unfold_handler. rewrite Hat, Ht.
  destruct (create env Project _ w) as [[d | e] w']; reflexivity.
Qed.

Lemma put_projects_run env req w image tech :
  attached env req "portfolio/projects" w = (Ok image, w) ->
  tech_split (body req) = Ok tech ->
  handle env PUT_projects_id req w
  = match findByIdAndUpdate env Project (params_id req)
            (project_update_data tech image (body req)) w with
    | (Ok r, w') => (Responded (ok (json_of r)), w')
    | (Throw e, w') => (Responded (failure e), w')
    end.
Proof.
  intros Hat Ht. unfold_handler. rewrite Hat, Ht.
  destruct (findByIdAndUpdate env Project _ _ w) as [[r | e] w']; reflexivity.
Qed.

Lemma post_certifications_run env req w image :
  attached env req "portfolio/certifications" w = (Ok image, w) ->
  handle env POST_certifications req w
  = match create env Certification (certification_data image (body req)) w with
    | (Ok d, w') => (Responded (ok (JDoc d)), w')
    | (Throw e, w') => (Responded (failure e), w')
    end.
Proof.
  intros Hat. unfold_handler. rewrite Hat.
  destruct (create env Certification _ w) as [[d | e] w']; reflexivity.
Qed.

(** What the upload block can give. *)
Lemma attached_value env req folder w att :
  attached env req folder w = (Ok att, w) ->
  (file req = None /\ att = VUndef)
  \/ (exists f r, file req = Some f /\ cloud env (buffer f) folder = (None, r)
                  /\ att = VStr (secure_url r)).
Proof.
  rewrite attached_run. destruct (file req) as [f |].
  - destruct (cloud env (buffer f) folder) as [[e |] r] eqn:Hc;
      [discriminate |].
    intros [= <-]. right. exists f, r. auto.
  - intros [= <-]. left. auto.
Qed.

Lemma stamp_lookup_ne t s (o : object) k :
  k <> "createdAt" -> stamp t s o !! k = o !! k.
Proof.
  intros Hk. unfold stamp. destruct (timestamps s); [| reflexivity].
  destruct (truthy (get o "createdAt")); [reflexivity |].
  apply lookup_insert_ne. congruence.
Qed.

(** The value stored under a declared path of a created document. *)
Lemma built_path env m data o p :
  build env (doc_paths (schema_of m)) data = Ok o ->
  p ∈ doc_paths (schema_of m) ->
  exists v', member env (default_value (now env)) p data = Ok v'
             /\ o !! pname p = if defined v' then Some v' else None.
Proof.
  intros Hb Hin.
  exact (cast_paths_in env _ _ data o p (schema_names_distinct m) Hb Hin).
Qed.


(** ** The tech field *)

Lemma tech_split_string (b : object) s :
  get b "tech" = VStr s -> tech_split b = Ok (VArr (split "," s)).
Proof. unfold tech_split. intros ->. reflexivity. Qed.

Lemma tech_split_absent (b : object) :
  b !! "tech" = None -> tech_split b = Ok VUndef.
Proof. unfold tech_split, get. intros ->. reflexivity. Qed.

Lemma project_create_data_tech tech image (b : object) :
  get (project_create_data tech image b) "tech" = tech.
Proof.
  unfold get, project_create_data.
  rewrite lookup_insert_ne by discriminate.
  rewrite lookup_insert_eq. reflexivity.
Qed.

Lemma project_update_data_tech tech image (b : object) :
  get (project_update_data tech image b) "tech" = tech.
Proof.
  unfold get, project_update_data, spread_if_truthy.
  destruct (truthy image).
  - rewrite lookup_insert_ne by discriminate.
    rewrite lookup_insert_eq. reflexivity.
  - rewrite lookup_insert_eq. reflexivity.
Qed.

(** A created Project stores the array it is given as it is. *)
Lemma created_project_tech env data o l :
  build env (doc_paths (schema_of Project)) data = Ok o ->
  get data "tech" = VArr l ->
  stamp (now env) (schema_of Project) o !! "tech" = Some (VArr l).
Proof.
  intros Hb Ht. rewrite stamp_lookup_ne by discriminate.
  destruct (built_path env Project data o (mkPath "tech" TStrings NoDefault) Hb)
    as (v' & Hm & Hl); [simpl; in_list |].
  unfold member in Hm. simpl in Hm. rewrite Ht in Hm. simpl in Hm.
  injection Hm as <-. exact Hl.
Qed.

(** A created Project without a tech value stores the empty array. *)
Lemma created_project_no_tech env data o :
  build env (doc_paths (schema_of Project)) data = Ok o ->
  get data "tech" = VUndef ->
  stamp (now env) (schema_of Project) o !! "tech" = Some (VArr []).
Proof.
  intros Hb Ht. rewrite stamp_lookup_ne by discriminate.
  destruct (built_path env Project data o (mkPath "tech" TStrings NoDefault) Hb)
    as (v' & Hm & Hl); [simpl; in_list |].
  unfold member in Hm. simpl in Hm. rewrite Ht in Hm. simpl in Hm.
  injection Hm as <-. exact Hl.
Qed.

Lemma updated_project_tech env data upd l :
  cast_update env (paths (schema_of Project)) data = Ok upd ->
  get data "tech" = VArr l ->
  upd !! "tech" = Some (VArr l).
Proof.
  intros Hc Ht.
  destruct (cast_paths_in env _ _ data upd (mkPath "tech" TStrings NoDefault)
              (update_names_distinct Project) Hc)
    as (v' & Hm & Hl); [simpl; in_list |].
  unfold member in Hm. simpl in Hm. rewrite Ht in Hm. simpl in Hm.
  injection Hm as <-. exact Hl.
Qed.

(** An update finds the document when one has the identifier. *)
Lemma update_first_some id f l :
  (forall x, _id (f x) = _id x) ->
  (exists p, p ∈ l /\ _id p = id) ->
  exists q l',
    update_first id f l = Some (f q, l')
    /\ q ∈ l /\ _id q = id /\ f q ∈ l' /\ length l' = length l.
Proof.
  intros Hf. induction l as [| x r IH]; intros (p & Hin & Hp).
  - apply elem_of_nil in Hin as [].
  - simpl. destruct (Nat.eqb (_id x) id) eqn:E.
    + apply Nat.eqb_eq in E. exists x, (f x :: r).
      repeat split; auto; apply list_elem_of_here.
    + apply elem_of_cons in Hin as [-> | Hin].
      { apply Nat.eqb_neq in E. contradiction. }
      destruct IH as (q & l' & Hu & Hq & Hid & Hfq & Hlen); [eauto |].
      rewrite Hu. exists q, (x :: l').
      repeat split; auto; try (apply list_elem_of_further; assumption).
      simpl. congruence.
Qed.

(** C3 (as amended).  A Project create or update whose body carries tech
    as a string stores the pieces of that string between the commas, in
    order and exactly as they stand between the commas; for "Go,Rust,C++"
    these are "Go", "Rust", "C++". *)
Theorem tech_is_split_on_commas env req w image s :
  get (body req) "tech" = VStr s ->
  attached env req "portfolio/projects" w = (Ok image, w) ->
  (forall o,
      accepts env (CCreate Project
                     (project_create_data (VArr (split "," s)) image (body req))) ->
      build env (doc_paths (schema_of Project))
        (project_create_data (VArr (split "," s)) image (body req)) = Ok o ->
      exists d w',
        handle env POST_projects req w = (Responded (ok (JDoc d)), w')
        /\ projects (db w') = projects (db w) ++ [d]
        /\ fields d !! "tech" = Some (VArr (split "," s)))
  /\ (forall upd,
         accepts env (CUpdate Project (params_id req)
                        (project_update_data (VArr (split "," s)) image (body req))) ->
         cast_update env (paths (schema_of Project))
           (project_update_data (VArr (split "," s)) image (body req)) = Ok upd ->
         (exists p, p ∈ projects (db w) /\ _id p = params_id req) ->
         exists d w',
           handle env PUT_projects_id req w = (Responded (ok (JDoc d)), w')
           /\ d ∈ projects (db w')
           /\ _id d = params_id req
           /\ fields d !! "tech" = Some (VArr (split "," s)))
  /\ split "," "Go,Rust,C++" = ["Go"; "Rust"; "C++"].
Proof.
  intros Ht Hat. pose proof (tech_split_string _ _ Ht) as Hs.
  split; [| split; [| reflexivity]].
  - intros o Ha Hb.
    rewrite (post_projects_run _ _ _ _ _ Hat Hs), create_run, Ha, Hb.
    eexists. eexists. split; [reflexivity |]. simpl.
    split; [reflexivity |].
    eapply created_project_tech; [exact Hb |].
    apply project_create_data_tech.
  - intros upd Ha Hc Hex.
    rewrite (put_projects_run _ _ _ _ _ Hat Hs), findByIdAndUpdate_run, Ha, Hc.
    destruct (update_first_some (params_id req) (set_fields upd)
                (coll Project (db w)) (fun x => eq_refl) Hex)
      as (q & l' & Hu & Hq & Hid & Hfq & _).
    rewrite Hu. eexists. eexists. split; [reflexivity |]. simpl.
    split; [exact Hfq |]. split; [exact Hid |].
    apply lookup_union_Some_l.
    eapply updated_project_tech; [exact Hc |].
    apply project_update_data_tech.
Qed.

Lemma tech_is_split_on_commas_witness :
  (exists d w',
      handle (env_ok 7) POST_projects (plain body_tech) empty_world
      = (Responded (ok (JDoc d)), w')
      /\ projects (db w') = projects (db empty_world) ++ [d]
      /\ fields d !! "tech" = Some (VArr (split "," "Go,Rust,C++")))
  /\ (exists d w',
         handle (env_ok 7) PUT_projects_id (mkRequest body_tech None 3)
           world_with_project
         = (Responded (ok (JDoc d)), w')
         /\ d ∈ projects (db w')
         /\ _id d = 3
         /\ fields d !! "tech" = Some (VArr (split "," "Go,Rust,C++"))).
Proof.
  split.
  - refine (proj1 (tech_is_split_on_commas (env_ok 7) (plain body_tech)
                     empty_world VUndef "Go,Rust,C++" eq_refl eq_refl)
              _ eq_refl _).
    vm_compute. reflexivity.
  - refine (proj1 (proj2 (tech_is_split_on_commas (env_ok 7)
                            (mkRequest body_tech None 3) world_with_project
                            VUndef "Go,Rust,C++" eq_refl eq_refl))
              _ eq_refl _ _).
    + vm_compute. reflexivity.
    + exists site. split; [apply list_elem_of_here | reflexivity].
Defined.

(** C3, the claim as stated fails: the pieces are not trimmed.  For tech
    "Go, Rust" the stored sequence is "Go", " Rust", which is not the
    sequence of trimmed pieces "Go", "Rust". *)
Lemma tech_pieces_are_not_trimmed :
  exists d,
    projects (db (snd (handle (env_ok 7) POST_projects (plain body_spaced_tech)
                         empty_world))) = [d]
    /\ fields d !! "tech" = Some (VArr ["Go"; " Rust"])
    /\ trimmed_pieces "Go, Rust" = ["Go"; "Rust"]
    /\ fields d !! "tech" <> Some (VArr (trimmed_pieces "Go, Rust")).
Proof.
  eexists. split; [vm_compute; reflexivity |].
  split; [vm_compute; reflexivity |].
  split; [vm_compute; reflexivity |].
  vm_compute. discriminate.
Qed.

(** C4 (as amended).  A Project create whose body has no tech member hands
    [Project.create] a field set whose tech is [undefined], and the Project
    that is stored carries tech as the empty array, the default of the
    array path. *)
Theorem absent_tech_is_stored_empty env req w image o :
  body req !! "tech" = None ->
  attached env req "portfolio/projects" w = (Ok image, w) ->
  accepts env (CCreate Project (project_create_data VUndef image (body req))) ->
  build env (doc_paths (schema_of Project))
    (project_create_data VUndef image (body req)) = Ok o ->
  exists d w',
    handle env POST_projects req w = (Responded (ok (JDoc d)), w')
    /\ store_log w'
       = store_log w
         ++ [CCreate Project (project_create_data VUndef image (body req))]
    /\ project_create_data VUndef image (body req) !! "tech" = Some VUndef
    /\ projects (db w') = projects (db w) ++ [d]
    /\ fields d !! "tech" = Some (VArr []).
Proof.
  intros Ht Hat Ha Hb. pose proof (tech_split_absent _ Ht) as Hs.
  rewrite (post_projects_run _ _ _ _ _ Hat Hs), create_run, Ha, Hb.
  eexists. eexists. split; [reflexivity |]. simpl.
  split; [reflexivity |].
  split.
  { unfold project_create_data. rewrite lookup_insert_ne by discriminate.
    apply lookup_insert_eq. }
  split; [reflexivity |].
  eapply created_project_no_tech; [exact Hb |].
  apply project_create_data_tech.
Qed.

Lemma absent_tech_is_stored_empty_witness :
  exists d w',
    handle (env_ok 7) POST_projects (plain body_title) empty_world
    = (Responded (ok (JDoc d)), w')
    /\ store_log w'
       = store_log empty_world
         ++ [CCreate Project
               (project_create_data VUndef VUndef (body (plain body_title)))]
    /\ project_create_data VUndef VUndef (body (plain body_title)) !! "tech"
       = Some VUndef
    /\ projects (db w') = projects (db empty_world) ++ [d]
    /\ fields d !! "tech" = Some (VArr []).
Proof.
  refine (absent_tech_is_stored_empty (env_ok 7) (plain body_title) empty_world
            VUndef _ eq_refl eq_refl eq_refl _).
  vm_compute. reflexivity.
Defined.

(** C4, the claim as stated fails: a Project created from a body without
    tech is stored with a tech field, the empty array. *)
Lemma absent_tech_is_not_omitted :
  exists d,
    projects (db (snd (handle (env_ok 7) POST_projects (plain body_title)
                         empty_world))) = [d]
    /\ body (plain body_title) !! "tech" = None
    /\ fields d !! "tech" = Some (VArr [])
    /\ fields d !! "tech" <> None.
Proof.
  eexists. split; [vm_compute; reflexivity |].
  split; [vm_compute; reflexivity |].
  split; [vm_compute; reflexivity |].
  vm_compute. discriminate.
Qed.

(** ** The attachment field *)

Lemma last_call_snoc d l c : last_call (mkWorld d (l ++ [c])) = Some c.
Proof. unfold last_call. simpl. apply last_snoc. Qed.

Lemma last_call_create env m data w :
  last_call (snd (create env m data w)) = Some (CCreate m data).
Proof. unfold last_call. rewrite create_recorded. apply last_snoc. Qed.

Lemma last_call_update env m id data w :
  last_call (snd (findByIdAndUpdate env m id data w)) = Some (CUpdate m id data).
Proof. unfold last_call. rewrite findByIdAndUpdate_recorded. apply last_snoc. Qed.

Lemma attached_none env req folder w :
  file req = None -> attached env req folder w = (Ok VUndef, w).
Proof. intros H. rewrite attached_run, H. reflexivity. Qed.

Lemma attached_some env req folder w f r :
  file req = Some f -> cloud env (buffer f) folder = (None, r) ->
  attached env req folder w = (Ok (VStr (secure_url r)), w).
Proof. intros H Hc. rewrite attached_run, H, Hc. reflexivity. Qed.

Lemma truthy_url u : u <> "" -> truthy (VStr u) = true.
Proof.
  intros H. simpl. destruct (String.eqb_spec u ""); [contradiction | reflexivity].
Qed.

(** The image of a created Project or Certification is what the handler
    puts in the field set: unset for [undefined], the string for a string. *)
Lemma created_image env m data o :
  m = Project \/ m = Certification ->
  build env (doc_paths (schema_of m)) data = Ok o ->
  (get data "image" = VUndef ->
   stamp (now env) (schema_of m) o !! "image" = None)
  /\ (forall u, get data "image" = VStr u ->
                stamp (now env) (schema_of m) o !! "image" = Some (VStr u)).
Proof.
  intros Hm Hb.
  destruct (built_path env m data o (str "image") Hb) as (v' & Hv & Hl).
  { destruct Hm as [-> | ->]; simpl; in_list. }
  unfold member in Hv. simpl in Hv. simpl in Hl.
  split.
  - intros Hg. rewrite Hg in Hv. simpl in Hv. injection Hv as <-.
    rewrite stamp_lookup_ne by discriminate. exact Hl.
  - intros u Hg. rewrite Hg in Hv. simpl in Hv. injection Hv as <-.
    rewrite stamp_lookup_ne by discriminate. exact Hl.
Qed.

Lemma post_profile_last_call env req w photo :
  attached env req "portfolio/profile" w = (Ok photo, w) ->
  accepts env (CFindOne Profile) ->
  last_call (snd (handle env POST_profile req w))
  = Some match profiles (db w) with
         | p :: _ => CUpdate Profile (_id p) (profile_data photo (body req))
         | [] => CCreate Profile (profile_data photo (body req))
         end.
Proof.
  intros Hat Ha. rewrite (post_profile_run _ _ _ _ Hat Ha). cbv zeta.
  destruct (profiles (db w)) as [| p rest].
  - rewrite <- (last_call_create env Profile (profile_data photo (body req))
                  (logged (CFindOne Profile) w)).
    destruct (create env Profile _ _) as [[d | e] w']; reflexivity.
  - rewrite <- (last_call_update env Profile (_id p)
                  (profile_data photo (body req)) (logged (CFindOne Profile) w)).
    destruct (findByIdAndUpdate env Profile _ _ _) as [[r | e] w']; reflexivity.
Qed.

Lemma put_projects_last_call env req w image tech :
  attached env req "portfolio/projects" w = (Ok image, w) ->
  tech_split (body req) = Ok tech ->
  last_call (snd (handle env PUT_projects_id req w))
  = Some (CUpdate Project (params_id req)
            (project_update_data tech image (body req))).
Proof.
  intros Hat Ht. rewrite (put_projects_run _ _ _ _ _ Hat Ht).
  rewrite <- (last_call_update env Project (params_id req)
                (project_update_data tech image (body req)) w).
  destruct (findByIdAndUpdate env Project _ _ _) as [[r | e] w']; reflexivity.
Qed.

Lemma post_projects_last_call env req w image tech :
  attached env req "portfolio/projects" w = (Ok image, w) ->
  tech_split (body req) = Ok tech ->
  last_call (snd (handle env POST_projects req w))
  = Some (CCreate Project (project_create_data tech image (body req))).
Proof.
  intros Hat Ht. rewrite (post_projects_run _ _ _ _ _ Hat Ht).
  rewrite <- (last_call_create env Project
                (project_create_data tech image (body req)) w).
  destruct (create env Project _ _) as [[r | e] w']; reflexivity.
Qed.

Lemma post_certifications_last_call env req w image :
  attached env req "portfolio/certifications" w = (Ok image, w) ->
  last_call (snd (handle env POST_certifications req w))
  = Some (CCreate Certification (certification_data image (body req))).
Proof.
  intros Hat. rewrite (post_certifications_run _ _ _ _ Hat).
  rewrite <- (last_call_create env Certification
                (certification_data image (body req)) w).
  destruct (create env Certification _ _) as [[r | e] w']; reflexivity.
Qed.

Lemma post_projects_creates env req w image tech v :
  attached env req "portfolio/projects" w = (Ok image, w) ->
  tech_split (body req) = Ok tech ->
  (image = VUndef /\ v = None) \/ (exists u, image = VStr u /\ v = Some (VStr u)) ->
  creates_with env POST_projects req w Project
    (project_create_data tech image (body req)) "image" v.
Proof.
  intros Hat Ht Hv. split.
  - exact (post_projects_last_call _ _ _ _ _ Hat Ht).
  - intros o Ha Hb.
    rewrite (post_projects_run _ _ _ _ _ Hat Ht), create_run, Ha, Hb.
    eexists. eexists. split; [reflexivity |]. simpl.
    split; [reflexivity |].
    destruct (created_image env Project _ o (or_introl eq_refl) Hb) as [Hu Hs].
    assert (get (project_create_data tech image (body req)) "image" = image) as Hg.
    { unfold get, project_create_data. rewrite lookup_insert_eq. reflexivity. }
    destruct Hv as [[-> ->] | (u & -> & ->)]; [apply Hu | apply Hs]; exact Hg.
Qed.

Lemma post_certifications_creates env req w image v :
  attached env req "portfolio/certifications" w = (Ok image, w) ->
  (image = VUndef /\ v = None) \/ (exists u, image = VStr u /\ v = Some (VStr u)) ->
  creates_with env POST_certifications req w Certification
    (certification_data image (body req)) "image" v.
Proof.
  intros Hat Hv. split.
  - exact (post_certifications_last_call _ _ _ _ Hat).
  - intros o Ha Hb.
    rewrite (post_certifications_run _ _ _ _ Hat), create_run, Ha, Hb.
    eexists. eexists. split; [reflexivity |]. simpl.
    split; [reflexivity |].
    destruct (created_image env Certification _ o (or_intror eq_refl) Hb)
      as [Hu Hs].
    assert (get (certification_data image (body req)) "image" = image) as Hg.
    { unfold get, certification_data. rewrite lookup_insert_eq. reflexivity. }
    destruct Hv as [[-> ->] | (u & -> & ->)]; [apply Hu | apply Hs]; exact Hg.
Qed.

(** C2 (as amended).  The field set a handler hands to the store is the
    request body (with tech replaced by its split on the Project routes)
    and the attachment field treated in one of two ways.  The Profile write
    and the Project update add the upload's URL only when a file was
    uploaded, over whatever the body holds there, and hand over the body's
    own value when no file is attached.  The Project create and the
    Certification create always set the attachment field themselves: to the
    URL when a file was uploaded, and to [undefined] when none was, so that
    the stored document has no image whatever the body holds there. *)
Theorem attachment_field_set env req w :
  (file req = None ->
     (accepts env (CFindOne Profile) ->
      last_call (snd (handle env POST_profile req w))
      = Some match profiles (db w) with
             | p :: _ => CUpdate Profile (_id p) (body req)
             | [] => CCreate Profile (body req)
             end)
     /\ (forall tech,
            tech_split (body req) = Ok tech ->
            last_call (snd (handle env PUT_projects_id req w))
            = Some (CUpdate Project (params_id req)
                      (<["tech" := tech]> (body req)))
            /\ creates_with env POST_projects req w Project
                 (<["image" := VUndef]> (<["tech" := tech]> (body req)))
                 "image" None)
     /\ creates_with env POST_certifications req w Certification
          (<["image" := VUndef]> (body req)) "image" None)
  /\ (forall f r u,
         file req = Some f -> secure_url r = u -> u <> "" ->
         (cloud env (buffer f) "portfolio/profile" = (None, r) ->
          accepts env (CFindOne Profile) ->
          last_call (snd (handle env POST_profile req w))
          = Some match profiles (db w) with
                 | p :: _ =>
                     CUpdate Profile (_id p) (<["photo" := VStr u]> (body req))
                 | [] => CCreate Profile (<["photo" := VStr u]> (body req))
                 end)
         /\ (forall tech,
                cloud env (buffer f) "portfolio/projects" = (None, r) ->
                tech_split (body req) = Ok tech ->
                last_call (snd (handle env PUT_projects_id req w))
                = Some (CUpdate Project (params_id req)
                          (<["image" := VStr u]>
                             (<["tech" := tech]> (body req))))
                /\ creates_with env POST_projects req w Project
                     (<["image" := VStr u]> (<["tech" := tech]> (body req)))
                     "image" (Some (VStr u)))
         /\ (cloud env (buffer f) "portfolio/certifications" = (None, r) ->
             creates_with env POST_certifications req w Certification
               (<["image" := VStr u]> (body req)) "image" (Some (VStr u)))).
Proof.
  split.
  - intros Hf.
    pose proof (fun folder => attached_none env req folder w Hf) as Hat.
    split; [| split].
    + intros Ha. exact (post_profile_last_call _ _ _ _ (Hat _) Ha).
    + intros tech Ht. split.
      * exact (put_projects_last_call _ _ _ _ _ (Hat _) Ht).
      * exact (post_projects_creates _ _ _ _ _ _ (Hat _) Ht
                 (or_introl (conj eq_refl eq_refl))).
    + exact (post_certifications_creates _ _ _ _ _ (Hat _)
               (or_introl (conj eq_refl eq_refl))).
  - intros f r u Hf <- Hu.
    pose proof (truthy_url _ Hu) as Htr.
    split; [| split].
    + intros Hc Ha.
      pose proof (post_profile_last_call _ _ _ _
                    (attached_some _ _ _ w _ _ Hf Hc) Ha) as H.
      unfold profile_data, spread_if_truthy in H. rewrite Htr in H. exact H.
    + intros tech Hc Ht.
      pose proof (attached_some _ _ _ w _ _ Hf Hc) as Hat. split.
      * pose proof (put_projects_last_call _ _ _ _ _ Hat Ht) as H.
        unfold project_update_data, spread_if_truthy in H.
        rewrite Htr in H. exact H.
      * exact (post_projects_creates _ _ _ _ _ _ Hat Ht
                 (or_intror (ex_intro _ _ (conj eq_refl eq_refl)))).
    + intros Hc.
      exact (post_certifications_creates _ _ _ _ _
               (attached_some _ _ _ w _ _ Hf Hc)
               (or_intror (ex_intro _ _ (conj eq_refl eq_refl)))).
Qed.

Lemma attachment_field_set_witness :
  creates_with (env_ok 7) POST_projects (plain body_image) empty_world Project
    (<["image" := VUndef]> (<["tech" := VUndef]> body_image)) "image" None
  /\ creates_with (env_ok 7) POST_certifications (with_file body_image)
       empty_world Certification
       (<["image" := VStr url0]> body_image) "image" (Some (VStr url0)).
Proof.
  split.
  - exact (proj2 (proj1 (proj2
             (proj1 (attachment_field_set (env_ok 7) (plain body_image)
                       empty_world) eq_refl)) VUndef eq_refl)).
  - refine (proj2 (proj2
              (proj2 (attachment_field_set (env_ok 7) (with_file body_image)
                        empty_world)
                 (mkFile [Byte.x89; Byte.x50]) (mkUpload url0) url0
                 eq_refl eq_refl _)) eq_refl).
    discriminate.
Defined.

(** C2, the claim as stated fails: on a Project create without a file the
    body's own image value is not persisted.  The handler hands the store
    [image: undefined], and the stored Project has no image. *)
Lemma caller_image_is_dropped_on_create :
  exists d,
    file (plain body_image) = None
    /\ body (plain body_image) !! "image"
       = Some (VStr "https://example.org/a.png")
    /\ last_call (snd (handle (env_ok 7) POST_projects (plain body_image)
                         empty_world))
       = Some (CCreate Project
                 (<["image" := VUndef]> (<["tech" := VUndef]> body_image)))
    /\ projects (db (snd (handle (env_ok 7) POST_projects (plain body_image)
                            empty_world))) = [d]
    /\ fields d !! "image" = None
    /\ fields d !! "image" <> body (plain body_image) !! "image".
Proof.
  eexists. split; [reflexivity |].
  split; [vm_compute; reflexivity |].
  split; [vm_compute; reflexivity |].
  split; [vm_compute; reflexivity |].
  split; [vm_compute; reflexivity |].
  vm_compute. discriminate.
Qed.

(** ** Listings, newest first *)

Lemma key_leb_total a b : key_leb a b = false -> key_leb b a = true.
Proof.
  destruct a as [x |], b as [y |]; simpl; try congruence.
  intros H. apply Z.leb_gt in H. apply Z.leb_le. lia.
Qed.

Lemma key_leb_trans a b c :
  key_leb a b = true -> key_leb b c = true -> key_leb a c = true.
Proof.
  destruct a as [x |], b as [y |], c as [z |]; simpl; try congruence.
  intros H1 H2. apply Z.leb_le in H1, H2. apply Z.leb_le. lia.
Qed.

Lemma key_leb_refl a : key_leb a a = true.
Proof. destruct a; simpl; [apply Z.leb_refl | reflexivity]. Qed.

Lemma insert_desc_perm d l : Permutation (insert_desc d l) (d :: l).
Proof.
  induction l as [| x r IH]; simpl.
  - apply Permutation_refl.
  - destruct (key_leb (created_key x) (created_key d)).
    + apply Permutation_refl.
    + eapply Permutation_trans; [apply perm_skip; exact IH | apply perm_swap].
Qed.

Lemma insert_desc_newest_first d l :
  newest_first l -> newest_first (insert_desc d l).
Proof.
  induction l as [| x r IH]; simpl.
  - intros _. split; [intros y [] | exact I].
  - intros [Hx Hr].
    destruct (key_leb (created_key x) (created_key d)) eqn:E; simpl.
    + split; [| split; assumption].
      intros y [<- | Hy]; [exact E |].
      eapply key_leb_trans; [exact (Hx y Hy) | exact E].
    + split; [| exact (IH Hr)].
      apply key_leb_total in E.
      intros y Hy. apply (Permutation_in _ (insert_desc_perm d r)) in Hy.
      destruct Hy as [<- | Hy]; [exact E | exact (Hx y Hy)].
Qed.

Lemma sort_perm l : Permutation (sort_createdAt_desc l) l.
Proof.
  induction l as [| d r IH]; simpl.
  - apply Permutation_refl.
  - eapply Permutation_trans; [apply insert_desc_perm |].
    apply perm_skip. exact IH.
Qed.

Lemma sort_newest_first l : newest_first (sort_createdAt_desc l).
Proof.
  induction l as [| d r IH]; simpl.
  - exact I.
  - apply insert_desc_newest_first. exact IH.
Qed.

(** Whatever order the scan goes in, it meets every document once. *)
Lemma insert_rank_perm env d l : Permutation (insert_rank env d l) (d :: l).
Proof.
  induction l as [| x r IH]; simpl.
  - apply Permutation_refl.
  - destruct (Nat.leb (scan_rank env (_id d)) (scan_rank env (_id x))).
    + apply Permutation_refl.
    + eapply Permutation_trans; [apply perm_skip; exact IH | apply perm_swap].
Qed.

Lemma scan_perm env l : Permutation (scan env l) l.
Proof.
  induction l as [| d r IH]; simpl.
  - apply Permutation_refl.
  - eapply Permutation_trans; [apply insert_rank_perm |].
    apply perm_skip. exact IH.
Qed.

(** Documents whose dates all differ can be put newest first in one way
    only. *)
Lemma newest_first_unique l2 :
  forall l1,
    strictly_newest_first l2 -> newest_first l1 -> Permutation l1 l2 ->
    l1 = l2.
Proof.
  induction l2 as [| x r IH]; intros l1 Hs Hn Hp.
  - apply Permutation_sym, Permutation_nil in Hp. exact Hp.
  - destruct l1 as [| y s].
    + apply Permutation_nil_cons in Hp. contradiction.
    + destruct Hs as [Hx Hr]. destruct Hn as [Hy Hs'].
      assert (y = x) as ->.
      { assert (In y (x :: r)) as [E | Hin]
            by (apply (Permutation_in _ Hp); left; reflexivity).
        - symmetry. exact E.
        - exfalso. pose proof (Hx y Hin) as Hlt.
          assert (In x (y :: s)) as [E | Hin']
              by (apply (Permutation_in _ (Permutation_sym Hp)); left;
                  reflexivity).
          + subst. rewrite key_leb_refl in Hlt. discriminate.
          + rewrite (Hy x Hin') in Hlt. discriminate. }
      f_equal. apply IH; [exact Hr | exact Hs' |].
      exact (Permutation_cons_inv Hp).
Qed.

(** Three documents dated at increasing times are listed in reverse,
    whatever order the scan goes in. *)
Lemma sorted_three env a b c ta tb tc :
  created_key a = Some ta -> created_key b = Some tb ->
  created_key c = Some tc ->
  (ta < tb)%Z -> (tb < tc)%Z ->
  sort_createdAt_desc (scan env [a; b; c]) = [c; b; a].
Proof.
  intros Ha Hb Hc Hab Hbc.
  apply newest_first_unique.
  - simpl. rewrite Ha, Hb, Hc.
    repeat split; intros y Hy; simpl in Hy;
      repeat match goal with
        | H : _ \/ _ |- _ => destruct H as [H | H]
        | H : False |- _ => contradiction
        end;
      subst y; rewrite ?Ha, ?Hb; simpl; apply Z.leb_gt; lia.
  - apply sort_newest_first.
  - eapply Permutation_trans; [apply sort_perm |].
    eapply Permutation_trans; [apply scan_perm |].
    exact (Permutation_rev [a; b; c]).
Qed.

(** A document created from data without [createdAt] is dated by the
    clock. *)
Lemma created_key_now env m data o id :
  m <> Profile ->
  build env (doc_paths (schema_of m)) data = Ok o ->
  data !! "createdAt" = None ->
  created_key (mkDoc id (stamp (now env) (schema_of m) o)) = Some (now env).
Proof.
  intros Hm Hb Hd.
  assert (get data "createdAt" = VUndef) as Hg by (unfold get; rewrite Hd; reflexivity).
  destruct (decide (m = Contact)) as [-> | Hc].
  - destruct (built_path env Contact data o
                (mkPath "createdAt" TDate DefaultNow) Hb)
      as (v' & Hv & Hl); [simpl; in_list |].
    unfold member in Hv. simpl in Hv. rewrite Hg in Hv. simpl in Hv.
    injection Hv as <-. simpl in Hl.
    unfold created_key, get, stamp. simpl. rewrite Hl. reflexivity.
  - destruct (built_path env m data o created_path Hb)
      as (v' & Hv & Hl); [destruct m; try contradiction; simpl; in_list |].
    unfold member in Hv. simpl in Hv. rewrite Hg in Hv. simpl in Hv.
    injection Hv as <-. simpl in Hl.
    assert (timestamps (schema_of m) = true) as Ht
        by (destruct m; try contradiction; reflexivity).
    unfold created_key, stamp, get. simpl. rewrite Ht, Hl. simpl.
    rewrite lookup_insert_eq. reflexivity.
Qed.

(** What a successful create route has stored. *)
Lemma inserted_document env poster getter m req w w' d :
  listed m poster getter ->
  inserts env poster m req w w' d ->
  exists o,
    build env (doc_paths (schema_of m)) (body req) = Ok o
    /\ d = mkDoc (next_id (db w)) (stamp (now env) (schema_of m) o).
Proof.
  intros Hl (resp & Hh & Hst & Hc).
  destruct Hl as [(-> & -> & _) | (-> & -> & _)]; revert Hh; unfold_handler.
  - destruct (negb (truthy (get (body req) "name"))
              || negb (truthy (get (body req) "email"))
              || negb (truthy (get (body req) "message"))).
    { intros [= <- <-]. simpl in Hst. discriminate. }
    rewrite create_run.
    destruct (build env _ _) as [o |]; [| discriminate].
    destruct (store_fault env _); [discriminate |].
    simpl. intros [= <- <-]. simpl in Hc.
    apply app_inj_tail in Hc as [_ <-]. eauto.
  - rewrite create_run.
    destruct (build env _ _) as [o |]; [| discriminate].
    destruct (store_fault env _); [discriminate |].
    simpl. intros [= <- <-]. simpl in Hc.
    apply app_inj_tail in Hc as [_ <-]. eauto.
Qed.

(** C8 (as amended).  GET /api/contact and GET /api/testimonials answer, in
    every state of the store, with the whole collection ordered by the
    [createdAt] field of its entries, latest first; entries of equal
    [createdAt] come in the order of the store's scan.  That field is the
    server's clock at insertion only when the request does not bring one:
    when A, then B, then C are inserted into an empty collection at strictly
    increasing readings of the clock, by requests without a [createdAt]
    member, the listing is C, B, A. *)
Theorem listings_newest_first m poster getter :
  listed m poster getter ->
  (forall env req w,
      accepts env (CFindSorted m) ->
      exists l,
        handle env getter req w
        = (Responded (ok (JDocs l)), logged (CFindSorted m) w)
        /\ Permutation l (coll m (db w))
        /\ newest_first l)
  /\ (forall envA envB envC envL reqA reqB reqC reqL w wA wB wC a b c,
         coll m (db w) = [] ->
         inserts envA poster m reqA w wA a ->
         inserts envB poster m reqB wA wB b ->
         inserts envC poster m reqC wB wC c ->
         body reqA !! "createdAt" = None ->
         body reqB !! "createdAt" = None ->
         body reqC !! "createdAt" = None ->
         (now envA < now envB)%Z ->
         (now envB < now envC)%Z ->
         accepts envL (CFindSorted m) ->
         handle envL getter reqL wC
         = (Responded (ok (JDocs [c; b; a])), logged (CFindSorted m) wC)).
Proof.
  intros Hl.
  assert (forall env req w,
             accepts env (CFindSorted m) ->
             handle env getter req w
             = (Responded
                  (ok (JDocs (sort_createdAt_desc (scan env (coll m (db w)))))),
                logged (CFindSorted m) w)) as Hget.
  { intros env req w Ha.
    destruct Hl as [(-> & _ & ->) | (-> & _ & ->)]; unfold_handler;
      rewrite find_sorted_run, Ha; reflexivity. }
  assert (m <> Profile) as Hm
      by (destruct Hl as [(-> & _) | (-> & _)]; discriminate).
  split.
  - intros env req w Ha. eexists. split; [exact (Hget env req w Ha) |].
    split; [| apply sort_newest_first].
    eapply Permutation_trans; [apply sort_perm | apply scan_perm].
  - intros envA envB envC envL reqA reqB reqC reqL w wA wB wC a b c
      Hw HA HB HC HnA HnB HnC Hab Hbc Ha.
    destruct (inserted_document _ _ _ _ _ _ _ _ Hl HA) as (oA & HbA & ->).
    destruct (inserted_document _ _ _ _ _ _ _ _ Hl HB) as (oB & HbB & ->).
    destruct (inserted_document _ _ _ _ _ _ _ _ Hl HC) as (oC & HbC & ->).
    destruct HA as (_ & _ & _ & HcA). destruct HB as (_ & _ & _ & HcB).
    destruct HC as (_ & _ & _ & HcC).
    rewrite (Hget envL reqL wC Ha), HcC, HcB, HcA, Hw. cbv [Datatypes.app].
    erewrite sorted_three;
      [reflexivity
      | exact (created_key_now envA m _ oA _ Hm HbA HnA)
      | exact (created_key_now envB m _ oB _ Hm HbB HnB)
      | exact (created_key_now envC m _ oC _ Hm HbC HnC)
      | exact Hab | exact Hbc].
Qed.

Lemma listings_newest_first_witness :
  (exists l,
      handle (env_ok 4) GET_contact (plain ∅) after_C
      = (Responded (ok (JDocs l)), logged (CFindSorted Contact) after_C)
      /\ Permutation l (coll Contact (db after_C))
      /\ newest_first l)
  /\ handle (env_ok 4) GET_contact (plain ∅) after_C
     = (Responded
          (ok (JDocs [stored_msg 2 "C" 3; stored_msg 1 "B" 2;
                      stored_msg 0 "A" 1])),
        logged (CFindSorted Contact) after_C).
Proof.
  pose proof (listings_newest_first Contact POST_contact GET_contact
                (or_introl (conj eq_refl (conj eq_refl eq_refl)))) as [H1 H2].
  split.
  - exact (H1 (env_ok 4) (plain ∅) after_C eq_refl).
  - refine (H2 (env_ok 1) (env_ok 2) (env_ok 3) (env_ok 4)
              (plain (msg "A")) (plain (msg "B")) (plain (msg "C")) (plain ∅)
              empty_world after_A after_B after_C
              (stored_msg 0 "A" 1) (stored_msg 1 "B" 2) (stored_msg 2 "C" 3)
              eq_refl _ _ _ _ _ _ _ _ eq_refl);
      try (eexists; split; [vm_compute; reflexivity |];
           split; vm_compute; reflexivity);
      try (vm_compute; reflexivity).
Defined.

(** C8, the claim as stated fails.  A, then B, then C are
    inserted into the empty Contact collection at times 1, 2 and 3, each
    answered 200; the body of C carries a [createdAt] of its own, older than
    the server's dates of A and B, and the handler passes the body whole to
    [Contact.create] (line 438).  The listing is then B, A, C and not
    C, B, A. *)
Lemma backdated_entry_is_listed_last :
  inserts (env_ok 1) POST_contact Contact (plain (msg "A"))
    empty_world after_A (stored_msg 0 "A" 1)
  /\ inserts (env_ok 2) POST_contact Contact (plain (msg "B"))
       after_A after_B (stored_msg 1 "B" 2)
  /\ inserts (env_dates 3) POST_contact Contact (plain backdated_msg)
       after_B after_backdated_C (stored_msg 2 "C" 0)
  /\ fst (handle (env_dates 4) GET_contact (plain ∅) after_backdated_C)
     = Responded
         (ok (JDocs [stored_msg 1 "B" 2; stored_msg 0 "A" 1;
                     stored_msg 2 "C" 0]))
  /\ fst (handle (env_dates 4) GET_contact (plain ∅) after_backdated_C)
     <> Responded
          (ok (JDocs [stored_msg 2 "C" 0; stored_msg 1 "B" 2;
                      stored_msg 0 "A" 1])).
Proof.
  split; [eexists; split; [vm_compute; reflexivity |];
          split; vm_compute; reflexivity |].
  split; [eexists; split; [vm_compute; reflexivity |];
          split; vm_compute; reflexivity |].
  split; [eexists; split; [vm_compute; reflexivity |];
          split; vm_compute; reflexivity |].
  split; [vm_compute; reflexivity |].
  vm_compute. discriminate.
Qed.

(** Entries inserted at one reading of the clock have no order of their
    own: the listing follows the scan, here in the order of insertion and
    against it. *)
Example same_time_entries_follow_the_scan :
  fst (handle (env_ok 4) GET_contact (plain ∅) same_time)
  = Responded
      (ok (JDocs [stored_msg 0 "A" 1; stored_msg 1 "B" 1; stored_msg 2 "C" 1]))
  /\ fst (handle (env_backwards 4) GET_contact (plain ∅) same_time)
     = Responded
         (ok (JDocs [stored_msg 2 "C" 1; stored_msg 1 "B" 1;
                     stored_msg 0 "A" 1])).
Proof. split; vm_compute; reflexivity. Qed.

(** In a collection that was not empty the three entries come first, the
    older entry after them. *)
Example older_entries_are_listed_after :
  fst (handle (env_ok 4) GET_contact (plain ∅) after_D_A_B_C)
  = Responded
      (ok (JDocs [stored_msg 3 "C" 3; stored_msg 2 "B" 2; stored_msg 1 "A" 1;
                  stored_msg 0 "D" 0])).
Proof. vm_compute. reflexivity. Qed.

(** * Further properties of the server *)

(** ** Connecting to the database (lines 246-253) *)

Lemma connectDB_connected fails p :
  isConnected p = true -> connectDB fails p = (Ok tt, p).
Proof. unfold connectDB. intros ->. reflexivity. Qed.

Lemma connectDB_first fails p :
  isConnected p = false ->
  snd (connectDB fails p)
  = mkProcess (succeeds fails) (Datatypes.S (connect_calls p)).
Proof.
  unfold connectDB. intros Hp. rewrite Hp.
  destruct fails; simpl; rewrite ?Hp; reflexivity.
Qed.

Lemma connect_each_connected attempts p :
  isConnected p = true -> connect_each attempts p = p.
Proof.
  intros Hp. unfold connect_each.
  induction attempts as [| a rest IH]; simpl; [reflexivity |].
  rewrite (connectDB_connected _ _ Hp). exact IH.
Qed.

(** X1.  Once [connectDB] has connected, further calls do nothing; until
    then every call makes one connection attempt, so that the number of
    attempts made is that of the calls up to the first success, and the flag
    is set exactly when one attempt succeeded. *)
Theorem connectDB_connects_once attempts p :
  (isConnected p = true -> connect_each attempts p = p)
  /\ (isConnected p = false ->
      connect_calls (connect_each attempts p)
      = (connect_calls p + attempts_made attempts)%nat
      /\ isConnected (connect_each attempts p) = existsb succeeds attempts).
Proof.
  split; [apply connect_each_connected |].
  revert p. induction attempts as [| a rest IH]; intros p Hp.
  - simpl. split; [lia | exact Hp].
  - change (connect_each (a :: rest) p)
      with (connect_each rest (snd (connectDB a p))).
    rewrite (connectDB_first _ _ Hp).
    destruct a as [e |]; simpl succeeds.
    + destruct (IH (mkProcess false (Datatypes.S (connect_calls p))) eq_refl)
        as [Hc Hi].
      simpl. split; [rewrite Hc; simpl; lia | exact Hi].
    + rewrite connect_each_connected by reflexivity. simpl.
      split; [lia | reflexivity].
Qed.

Lemma connectDB_connects_once_witness :
  connect_each [Some lost; None; None; Some lost] (mkProcess false 0)
  = mkProcess true 2.
Proof.
  pose proof (proj2 (connectDB_connects_once [Some lost; None; None; Some lost]
                       (mkProcess false 0)) eq_refl) as [Hc Hi].
  destruct (connect_each [Some lost; None; None; Some lost] (mkProcess false 0))
    as [b n].
  simpl in Hc, Hi. rewrite Hc, Hi. reflexivity.
Defined.

(** ** From the body of a handler to requests and runs *)

(** Takes a property of the shape [preserves P] through the body of a
    handler: [ops] closes the store writes, the frame rules do the rest. *)
Ltac preserves_route R T ops :=
  repeat first
    [ ops
    | match goal with
      | |- preserves ?P _ =>
          first
            [ apply (preserves_attached P R)
            | apply (preserves_findOne P R)
            | apply (preserves_find P R)
            | apply (preserves_find_sorted P R)
            | apply (preserves_ret P R)
            | apply (preserves_lift P R)
            | apply (preserves_try_catch P T); [| intros ?]
            | apply (preserves_bind P T); [| intros ?] ]
      end
    | match goal with
      | |- preserves _ (match ?x with _ => _ end) => destruct x
      end ].

Lemma handle_db env r req w :
  db (snd (handle env r req w)) = db (snd (app env r req w)).
Proof. unfold handle. destruct (app env r req w) as [[resp | e] w']; reflexivity. Qed.

Lemma handle_preserves (P : Db -> Db -> Prop) env r req w :
  preserves P (app env r req) -> P (db w) (db (snd (handle env r req w))).
Proof. intros H. rewrite handle_db. apply H. Qed.

Lemma run_preserves (P : Db -> Db -> Prop) :
  (forall d, P d d) ->
  (forall a b c, P a b -> P b c -> P a c) ->
  (forall env r req, preserves P (app env r req)) ->
  forall steps w, P (db w) (db (run steps w)).
Proof.
  intros R T H steps. unfold run.
  induction steps as [| [[env r] req] rest IH]; intros w; simpl.
  - apply R.
  - eapply T; [apply (handle_preserves P env r req w (H env r req)) |].
    apply IH.
Qed.

(** ** Reads *)

Lemma unchanged_refl (d : Db) : d = d.
Proof. reflexivity. Qed.

Lemma unchanged_trans (a b c : Db) : b = a -> c = b -> c = a.
Proof. congruence. Qed.

(** X2.  The six GET routes only read: whatever the environment, and
    whether the query goes through or throws, the collections and the
    identifier counter are those of before. *)
Theorem get_routes_change_nothing env r req w :
  is_get r = true -> db (snd (handle env r req w)) = db w.
Proof.
  intros Hr.
  apply (handle_preserves (fun d d' => d' = d)).
  pose proof unchanged_refl as R. pose proof unchanged_trans as T.
  destruct r; try discriminate; unfold_routes;
    preserves_route R T fail.
Qed.

Lemma get_routes_change_nothing_witness :
  db (snd (handle env_store_down GET_testimonials (plain ∅) world_with_project))
  = db world_with_project.
Proof.
  exact (get_routes_change_nothing env_store_down GET_testimonials (plain ∅)
           world_with_project eq_refl).
Defined.

(** ** One collection per route *)

Lemma same_coll_refl m d : same_coll m d d.
Proof. reflexivity. Qed.

Lemma same_coll_trans m a b c :
  same_coll m a b -> same_coll m b c -> same_coll m a c.
Proof. unfold same_coll. congruence. Qed.

Lemma create_same_coll env m' data m :
  m <> m' -> preserves (same_coll m) (create env m' data).
Proof.
  intros Hm w. rewrite create_run. unfold same_coll.
  destruct (build env _ _); [| reflexivity].
  destruct (store_fault env _); [reflexivity |].
  simpl. rewrite coll_fresh. apply coll_set_coll_ne. congruence.
Qed.

Lemma update_same_coll env m' id data m :
  m <> m' -> preserves (same_coll m) (findByIdAndUpdate env m' id data).
Proof.
  intros Hm w. rewrite findByIdAndUpdate_run. unfold same_coll.
  destruct (cast_update env _ _) as [upd |]; [| reflexivity].
  destruct (store_fault env _); [reflexivity |].
  destruct (update_first id _ _) as [[x l] |]; [| reflexivity].
  simpl. apply coll_set_coll_ne. congruence.
Qed.

Lemma delete_same_coll env m' id m :
  m <> m' -> preserves (same_coll m) (findByIdAndDelete env m' id).
Proof.
  intros Hm w. rewrite findByIdAndDelete_run. unfold same_coll.
  destruct (store_fault env _); [reflexivity |].
  simpl. apply coll_set_coll_ne. congruence.
Qed.

(** X3.  A request touches the collection of its route only: every other
    collection is left as it was, in every environment. *)
Theorem routes_keep_other_collections env r req w m :
  m <> model_of r ->
  coll m (db (snd (handle env r req w))) = coll m (db w).
Proof.
  intros Hm.
  apply (handle_preserves (same_coll m)).
  pose proof (same_coll_refl m) as R. pose proof (same_coll_trans m) as T.
  destruct r; simpl in Hm; unfold_routes;
    try match goal with
        | |- context [if ?b then _ else _] => destruct b
        end;
    preserves_route R T
      ltac:(first [ apply create_same_coll; exact Hm
                  | apply update_same_coll; exact Hm
                  | apply delete_same_coll; exact Hm ]).
Qed.

Lemma routes_keep_other_collections_witness :
  coll Project
    (db (snd (handle (env_ok 5) POST_experience (plain body_title)
                world_with_project)))
  = coll Project (db world_with_project).
Proof.
  refine (routes_keep_other_collections (env_ok 5) POST_experience
            (plain body_title) world_with_project Project _).
  discriminate.
Defined.

(** ** Contacts are only ever added *)

Lemma contacts_grow_refl d : contacts_grow d d.
Proof. exists []. symmetry. apply app_nil_r. Qed.

Lemma contacts_grow_trans a b c :
  contacts_grow a b -> contacts_grow b c -> contacts_grow a c.
Proof.
  intros [k1 H1] [k2 H2]. exists (k1 ++ k2).
  rewrite H2, H1, app_assoc. reflexivity.
Qed.

Lemma create_contacts_grow env m data :
  preserves contacts_grow (create env m data).
Proof.
  intros w. rewrite create_run.
  destruct (build env _ _) as [o |]; [| apply contacts_grow_refl].
  destruct (store_fault env _); [apply contacts_grow_refl |].
  unfold contacts_grow. cbn [snd db].
  change (contacts ?d) with (coll Contact d). rewrite coll_fresh.
  destruct (decide (m = Contact)) as [-> | Hne].
  - rewrite coll_set_coll. eexists. reflexivity.
  - rewrite coll_set_coll_ne by exact Hne. exists [].
    symmetry. apply app_nil_r.
Qed.

Lemma update_contacts_grow env m id data :
  m <> Contact -> preserves contacts_grow (findByIdAndUpdate env m id data).
Proof.
  intros Hm w.
  pose proof (update_same_coll env m id data Contact (not_eq_sym Hm) w) as H.
  unfold same_coll in H. simpl in H. exists []. rewrite H.
  symmetry. apply app_nil_r.
Qed.

Lemma delete_contacts_grow env m id :
  m <> Contact -> preserves contacts_grow (findByIdAndDelete env m id).
Proof.
  intros Hm w.
  pose proof (delete_same_coll env m id Contact (not_eq_sym Hm) w) as H.
  unfold same_coll in H. simpl in H. exists []. rewrite H.
  symmetry. apply app_nil_r.
Qed.

Lemma app_contacts_grow env r req : preserves contacts_grow (app env r req).
Proof.
  pose proof contacts_grow_refl as R. pose proof contacts_grow_trans as T.
  destruct r; unfold_routes;
    try match goal with
        | |- context [if ?b then _ else _] => destruct b
        end;
    preserves_route R T
      ltac:(first [ apply create_contacts_grow
                  | apply update_contacts_grow; discriminate
                  | apply delete_contacts_grow; discriminate ]).
Qed.

(** X6.  The Contact collection is append-only: after any request, and
    after any sequence of requests on any routes, it is the collection of
    before followed by the contacts added since; no stored contact is ever
    changed, moved or removed. *)
Theorem contacts_are_append_only steps w :
  exists added, contacts (db (run steps w)) = contacts (db w) ++ added.
Proof.
  exact (run_preserves contacts_grow contacts_grow_refl contacts_grow_trans
           app_contacts_grow steps w).
Qed.

(** ** The Profile stays *)

Lemma head_profile_refl d : head_profile_kept d d.
Proof. intros p rest H. eauto. Qed.

Lemma head_profile_trans a b c :
  head_profile_kept a b -> head_profile_kept b c -> head_profile_kept a c.
Proof.
  intros H1 H2 p rest Hp.
  destruct (H1 p rest Hp) as (p1 & r1 & Hp1 & Hi1).
  destruct (H2 p1 r1 Hp1) as (p2 & r2 & Hp2 & Hi2).
  exists p2, r2. split; [exact Hp2 | congruence].
Qed.

Lemma create_head_profile env m data :
  preserves head_profile_kept (create env m data).
Proof.
  intros w. rewrite create_run.
  destruct (build env _ _) as [o |]; [| apply head_profile_refl].
  destruct (store_fault env _); [apply head_profile_refl |].
  cbn [snd db]. intros p rest Hp.
  change (profiles ?d) with (coll Profile d). rewrite coll_fresh.
  change (profiles (db w)) with (coll Profile (db w)) in Hp.
  destruct (decide (m = Profile)) as [-> | Hne].
  - rewrite coll_set_coll, Hp. simpl. eauto.
  - rewrite coll_set_coll_ne by exact Hne. eauto.
Qed.

Lemma update_head_profile_kept env m id data :
  preserves head_profile_kept (findByIdAndUpdate env m id data).
Proof.
  intros w. rewrite findByIdAndUpdate_run.
  destruct (cast_update env _ _) as [upd |]; [| apply head_profile_refl].
  destruct (store_fault env _); [apply head_profile_refl |].
  destruct (update_first id _ _) as [[x l] |] eqn:Hu; [| apply head_profile_refl].
  cbn [snd db]. intros p rest Hp.
  change (profiles ?d) with (coll Profile d).
  change (profiles (db w)) with (coll Profile (db w)) in Hp.
  destruct (decide (m = Profile)) as [-> | Hne];
    [| rewrite coll_set_coll_ne by exact Hne; eauto].
  rewrite coll_set_coll. rewrite Hp in Hu. simpl in Hu.
  destruct (Nat.eqb (_id p) id).
  - injection Hu as _ <-. eexists. eexists. split; reflexivity.
  - destruct (update_first id (set_fields upd) rest) as [[z r'] |];
      [| discriminate].
    injection Hu as _ <-. eauto.
Qed.

Lemma delete_head_profile env m id :
  m <> Profile -> preserves head_profile_kept (findByIdAndDelete env m id).
Proof.
  intros Hm w.
  pose proof (delete_same_coll env m id Profile (not_eq_sym Hm) w) as H.
  unfold same_coll in H. simpl in H. intros p rest Hp.
  rewrite H, Hp. eauto.
Qed.

Lemma app_head_profile env r req : preserves head_profile_kept (app env r req).
Proof.
  pose proof head_profile_refl as R. pose proof head_profile_trans as T.
  destruct r; unfold_routes;
    try match goal with
        | |- context [if ?b then _ else _] => destruct b
        end;
    preserves_route R T
      ltac:(first [ apply create_head_profile
                  | apply update_head_profile_kept
                  | apply delete_head_profile; discriminate ]).
Qed.

(** X7.  The Profile is permanent: once a Profile is stored, after any
    sequence of requests a Profile is still first in the collection, under
    the identifier it was created with; no route removes or replaces it. *)
Theorem profile_is_permanent steps w p rest :
  profiles (db w) = p :: rest ->
  exists p' rest',
    profiles (db (run steps w)) = p' :: rest' /\ _id p' = _id p.
Proof.
  exact (run_preserves head_profile_kept head_profile_refl head_profile_trans
           app_head_profile steps w p rest).
Qed.

Lemma profile_is_permanent_witness :
  exists p' rest',
    profiles (db (run [(env_ok 3, POST_profile, with_file body_title);
                       (env_ok 4, DELETE_projects_id, mkRequest ∅ None 0);
                       (env_store_down, POST_profile, plain ∅)]
                    world_with_profile)) = p' :: rest'
    /\ _id p' = _id ada.
Proof.
  exact (profile_is_permanent _ world_with_profile ada [] eq_refl).
Defined.

(** ** A request that does not answer 200 changes nothing *)












(** ** Updating and deleting by identifier *)

Lemma update_first_absent id f l : absent id l -> update_first id f l = None.
Proof.
  induction l as [| x r IH]; intros H; simpl; [reflexivity |].
  destruct (Nat.eqb_spec (_id x) id) as [E | _].
  - exfalso. exact (H x (list_elem_of_here _ _) E).
  - rewrite IH; [reflexivity |].
    intros y Hy. apply H. apply list_elem_of_further, Hy.
Qed.

Lemma remove_first_absent id l : absent id l -> remove_first id l = l.
Proof.
  induction l as [| x r IH]; intros H; simpl; [reflexivity |].
  destruct (Nat.eqb_spec (_id x) id) as [E | _].
  - exfalso. exact (H x (list_elem_of_here _ _) E).
  - f_equal. apply IH. intros y Hy. apply H. apply list_elem_of_further, Hy.
Qed.

Lemma set_coll_same m d : set_coll m (coll m d) d = d.
Proof. destruct m, d; reflexivity. Qed.

Lemma set_coll_twice m l l' d : set_coll m l (set_coll m l' d) = set_coll m l d.
Proof. destruct m; reflexivity. Qed.

Lemma update_absent env m id data w :
  absent id (coll m (db w)) ->
  db (snd (findByIdAndUpdate env m id data w)) = db w
  /\ (accepts env (CUpdate m id data) ->
      (exists upd, cast_update env (paths (schema_of m)) data = Ok upd) ->
      findByIdAndUpdate env m id data w = (Ok None, logged (CUpdate m id data) w)).
Proof.
  intros Ha. rewrite findByIdAndUpdate_run. split.
  - destruct (cast_update env _ _) as [upd |]; [| reflexivity].
    destruct (store_fault env _); [reflexivity |].
    rewrite (update_first_absent _ _ _ Ha). reflexivity.
  - intros Hc (upd & Hu). rewrite Hc, Hu, (update_first_absent _ _ _ Ha).
    reflexivity.
Qed.

(** X9.  An update under an identifier that no document of the collection
    has changes nothing, and, when the store takes the call and the body
    casts, is answered 200 with [null], not with an error: so on PUT
    /api/experience/:id and PUT /api/testimonials/:id, and on PUT
    /api/projects/:id once the upload block and the split of tech have gone
    through. *)
Theorem update_of_unknown_id env req w :
  (forall r,
      is_plain_put r = true ->
      absent (params_id req) (coll (model_of r) (db w)) ->
      db (snd (handle env r req w)) = db w
      /\ (accepts env (CUpdate (model_of r) (params_id req) (body req)) ->
          (exists upd,
              cast_update env (paths (schema_of (model_of r))) (body req)
              = Ok upd) ->
          fst (handle env r req w) = Responded (ok JNull)))
  /\ (forall image tech,
         absent (params_id req) (projects (db w)) ->
         attached env req "portfolio/projects" w = (Ok image, w) ->
         tech_split (body req) = Ok tech ->
         db (snd (handle env PUT_projects_id req w)) = db w
         /\ (accepts env (CUpdate Project (params_id req)
                            (project_update_data tech image (body req))) ->
             (exists upd,
                 cast_update env (paths (schema_of Project))
                   (project_update_data tech image (body req)) = Ok upd) ->
             fst (handle env PUT_projects_id req w) = Responded (ok JNull))).
Proof.
  split.
  - intros r Hr Ha.
    assert (handle env r req w
            = match findByIdAndUpdate env (model_of r) (params_id req)
                      (body req) w with
              | (Ok d, w') => (Responded (ok (json_of d)), w')
              | (Throw e, w') => (Rejected e, w')
              end) as ->.
    { destruct r; try discriminate; unfold_handler; simpl model_of;
        destruct (findByIdAndUpdate env _ _ _ w) as [[d | e] w']; reflexivity. }
    destruct (update_absent env (model_of r) (params_id req) (body req) w Ha)
      as [Hdb Hok].
    split.
    + destruct (findByIdAndUpdate env _ _ _ w) as [[d | e] w']; exact Hdb.
    + intros Hc Hu. rewrite (Hok Hc Hu). reflexivity.
  - intros image tech Ha Hat Ht.
    rewrite (put_projects_run _ _ _ _ _ Hat Ht).
    destruct (update_absent env Project (params_id req)
                (project_update_data tech image (body req)) w Ha)
      as [Hdb Hok].
    split.
    + destruct (findByIdAndUpdate env _ _ _ w) as [[d | e] w']; exact Hdb.
    + intros Hc Hu. rewrite (Hok Hc Hu). reflexivity.
Qed.

Lemma update_of_unknown_id_witness :
  db (snd (handle (env_ok 5) PUT_experience_id
             (mkRequest body_title None 9) world_with_project))
  = db world_with_project
  /\ fst (handle (env_ok 5) PUT_experience_id
            (mkRequest body_title None 9) world_with_project)
     = Responded (ok JNull).
Proof.
  destruct (proj1 (update_of_unknown_id (env_ok 5)
                     (mkRequest body_title None 9) world_with_project)
              PUT_experience_id eq_refl) as [H1 H2].
  { intros x Hx. apply elem_of_nil in Hx as []. }
  split; [exact H1 |].
  apply H2; [reflexivity |].
  eexists. vm_compute. reflexivity.
Defined.

Lemma delete_route_run env r req w :
  is_delete r = true ->
  handle env r req w
  = match findByIdAndDelete env (model_of r) (params_id req) w with
    | (Ok _, w') =>
        (Responded (ok (JObj {["message" := VStr (deleted_message r)]})), w')
    | (Throw e, w') => (Rejected e, w')
    end.
Proof.
  intros Hr.
  destruct r; try discriminate; unfold_handler; simpl model_of;
    destruct (findByIdAndDelete env _ _ w) as [[u | e] w']; reflexivity.
Qed.

Lemma remove_first_length id l :
  (length (remove_first id l) <= length l
   /\ length l <= Datatypes.S (length (remove_first id l)))%nat.
Proof.
  induction l as [| x r IH]; simpl; [lia |].
  destruct (Nat.eqb (_id x) id); simpl; lia.
Qed.

(** With unique identifiers, what is left has not the identifier, and what
    had not the identifier is left. *)
Lemma remove_first_unique id l :
  NoDup (map _id l) ->
  forall x, x ∈ remove_first id l <-> x ∈ l /\ _id x <> id.
Proof.
  induction l as [| y r IH]; simpl; intros Hnd x.
  - split; [intros H; apply elem_of_nil in H as [] | intros [H _]; exact H].
  - apply NoDup_cons in Hnd as [Hy Hr].
    destruct (Nat.eqb_spec (_id y) id) as [E | Hne].
    + split.
      * intros Hx. split; [apply list_elem_of_further, Hx |].
        intros Ex. apply Hy. rewrite E, <- Ex.
        apply list_elem_of_fmap. exists x. auto.
      * intros [[-> | Hx]%elem_of_cons Hi]; [contradiction | exact Hx].
    + rewrite !elem_of_cons, (IH Hr x). split.
      * intros [-> | [Hx Hi]]; auto.
      * intros [[-> | Hx] Hi]; auto.
Qed.

Lemma delete_route_accepted env r req w :
  is_delete r = true ->
  accepts env (CDelete (model_of r) (params_id req)) ->
  handle env r req w
  = (Responded (ok (JObj {["message" := VStr (deleted_message r)]})),
     mkWorld (set_coll (model_of r)
                (remove_first (params_id req) (coll (model_of r) (db w)))
                (db w))
       (store_log w ++ [CDelete (model_of r) (params_id req)])).
Proof.
  intros Hr Ha.
  rewrite (delete_route_run _ _ _ _ Hr), findByIdAndDelete_run, Ha.
  reflexivity.
Qed.

(** X10.  A delete that the store takes is answered 200 with the route's
    acknowledgement whether or not a document had the identifier.  It
    removes the first document under that identifier, at most one document;
    with unique identifiers what is left is exactly the documents with
    another identifier; when no document has the identifier the store is
    unchanged. *)
Theorem delete_removes_one env r req w :
  is_delete r = true ->
  accepts env (CDelete (model_of r) (params_id req)) ->
  let m := model_of r in
  let w' := snd (handle env r req w) in
  fst (handle env r req w)
  = Responded (ok (JObj {["message" := VStr (deleted_message r)]}))
  /\ coll m (db w') = remove_first (params_id req) (coll m (db w))
  /\ (length (coll m (db w)) <= Datatypes.S (length (coll m (db w'))))%nat
  /\ (NoDup (map _id (coll m (db w))) ->
      forall x, x ∈ coll m (db w') <-> x ∈ coll m (db w) /\ _id x <> params_id req)
  /\ (absent (params_id req) (coll m (db w)) -> db w' = db w).
Proof.
  intros Hr Ha m w'. subst m w'.
  pose proof (delete_route_accepted env r req w Hr Ha) as E.
  set (h := handle env r req w) in *. rewrite E. clear E h.
  cbn [fst snd db]. rewrite coll_set_coll.
  split; [reflexivity |]. split; [reflexivity |].
  split; [apply remove_first_length |].
  split; [apply remove_first_unique |].
  intros Hab. rewrite (remove_first_absent _ _ Hab). apply set_coll_same.
Qed.

Lemma delete_removes_one_witness :
  fst (handle (env_ok 5) DELETE_projects_id (mkRequest ∅ None 3)
         world_with_project)
  = Responded (ok (JObj {["message" := VStr "Project deleted"]}))
  /\ coll Project (db (snd (handle (env_ok 5) DELETE_projects_id
                              (mkRequest ∅ None 3) world_with_project)))
     = [].
Proof.
  destruct (delete_removes_one (env_ok 5) DELETE_projects_id
              (mkRequest ∅ None 3) world_with_project eq_refl eq_refl)
    as (H1 & H2 & _).
  split; [exact H1 | exact H2].
Defined.

(** X11.  Deleting twice is deleting once: in a store with unique
    identifiers, a second delete of the same identifier, when the store
    takes both calls, leaves the store as the first left it, and both are
    answered with the same acknowledgement. *)
Theorem delete_is_idempotent env1 env2 r req w :
  is_delete r = true ->
  ids_fresh (db w) ->
  accepts env1 (CDelete (model_of r) (params_id req)) ->
  accepts env2 (CDelete (model_of r) (params_id req)) ->
  let w1 := snd (handle env1 r req w) in
  db (snd (handle env2 r req w1)) = db w1
  /\ fst (handle env2 r req w1) = fst (handle env1 r req w).
Proof.
  intros Hr Hf H1 H2 w1. subst w1.
  rewrite (delete_route_accepted env1 r req w Hr H1). cbn [fst snd].
  rewrite (delete_route_accepted env2 r req _ Hr H2). cbn [fst snd db].
  split; [| reflexivity].
  rewrite coll_set_coll.
  rewrite (remove_first_absent (params_id req)
             (remove_first (params_id req) (coll (model_of r) (db w)))).
  - apply set_coll_twice.
  - intros x Hx.
    exact (proj2 (proj1 (remove_first_unique _ _ (proj1 (Hf (model_of r))) x)
                    Hx)).
Qed.

Lemma delete_is_idempotent_witness :
  db (snd (handle (env_ok 6) DELETE_projects_id (mkRequest ∅ None 3)
             (snd (handle (env_ok 5) DELETE_projects_id (mkRequest ∅ None 3)
                     world_with_project))))
  = db (snd (handle (env_ok 5) DELETE_projects_id (mkRequest ∅ None 3)
               world_with_project)).
Proof.
  refine (proj1 (delete_is_idempotent (env_ok 5) (env_ok 6) DELETE_projects_id
                   (mkRequest ∅ None 3) world_with_project eq_refl _
                   eq_refl eq_refl)).
  intros m. destruct m; simpl; split; repeat constructor.
  - intros H. apply elem_of_nil in H as [].
Defined.

(** ** Creating, then listing, updating, deleting *)

Lemma listed_post_created m poster getter env req w d w' :
  listed_unsorted m poster getter ->
  handle env poster req w = (Responded (ok (JDoc d)), w') ->
  coll m (db w') = coll m (db w) ++ [d].
Proof.
  intros [(-> & -> & _) | [(-> & -> & _) | (-> & -> & _)]]; unfold_handler.
  - rewrite attached_run.
    destruct (file req) as [f |];
      [destruct (cloud env (buffer f) "portfolio/projects") as [[e |] u];
       [discriminate |] |];
      (destruct (tech_split (body req)) as [tech | e]; [| discriminate];
       rewrite create_run;
       destruct (build env _ _) as [o |]; [| discriminate];
       destruct (store_fault env _); [discriminate |];
       intros [= <- <-]; reflexivity).
  - rewrite create_run.
    destruct (build env _ _) as [o |]; [| discriminate].
    destruct (store_fault env _); [discriminate |].
    intros [= <- <-]. reflexivity.
  - rewrite attached_run.
    destruct (file req) as [f |];
      [destruct (cloud env (buffer f) "portfolio/certifications")
         as [[e |] u]; [discriminate |] |];
      (rewrite create_run;
       destruct (build env _ _) as [o |]; [| discriminate];
       destruct (store_fault env _); [discriminate |];
       intros [= <- <-]; reflexivity).
Qed.

(** X12.  What is created is listed.  GET /api/projects, GET
    /api/experience and GET /api/certifications answer with every document
    of the collection, each once, in the order in which the store's scan
    meets them; after a create that answered with document [d], the listing
    holds [d] and the documents of before, and nothing else. *)
Theorem listing_holds_what_was_created m poster getter :
  listed_unsorted m poster getter ->
  (forall env req w,
      accepts env (CFind m) ->
      exists l,
        handle env getter req w
        = (Responded (ok (JDocs l)), logged (CFind m) w)
        /\ Permutation l (coll m (db w)))
  /\ (forall env1 env2 req1 req2 w d w',
         handle env1 poster req1 w = (Responded (ok (JDoc d)), w') ->
         accepts env2 (CFind m) ->
         exists l,
           fst (handle env2 getter req2 w') = Responded (ok (JDocs l))
           /\ Permutation l (d :: coll m (db w))).
Proof.
  intros Hl.
  assert (forall env req w,
             accepts env (CFind m) ->
             handle env getter req w
             = (Responded (ok (JDocs (scan env (coll m (db w))))),
                logged (CFind m) w))
    as Hget.
  { intros env req w Ha.
    destruct Hl as [(-> & _ & ->) | [(-> & _ & ->) | (-> & _ & ->)]];
      unfold_handler; rewrite find_run, Ha; reflexivity. }
  split.
  - intros env req w Ha. eexists. split; [exact (Hget env req w Ha) |].
    apply scan_perm.
  - intros env1 env2 req1 req2 w d w' Hp Ha.
    rewrite (Hget env2 req2 w' Ha). eexists. split; [reflexivity |].
    rewrite (listed_post_created _ _ _ _ _ _ _ _ Hl Hp).
    eapply Permutation_trans; [apply scan_perm |].
    apply Permutation_sym, Permutation_cons_append.
Qed.

Lemma listing_holds_what_was_created_witness :
  exists l,
    fst (handle (env_backwards 2) GET_experience (plain ∅)
           (snd (handle (env_ok 1) POST_experience (plain body_title)
                   empty_world)))
    = Responded (ok (JDocs l))
    /\ Permutation l (mkDoc 0 {["createdAt" := VDate 1]}
                        :: coll Experience (db empty_world)).
Proof.
  refine (proj2 (listing_holds_what_was_created Experience POST_experience
                   GET_experience
                   (or_intror (or_introl (conj eq_refl (conj eq_refl eq_refl)))))
            (env_ok 1) (env_backwards 2) (plain body_title) (plain ∅)
            empty_world _ _ _ eq_refl).
  vm_compute. reflexivity.
Defined.

Lemma update_first_last id f l d :
  absent id l -> _id d = id ->
  update_first id f (l ++ [d]) = Some (f d, l ++ [f d]).
Proof.
  intros Ha Hd. induction l as [| x r IH]; simpl.
  - rewrite Hd, Nat.eqb_refl. reflexivity.
  - destruct (Nat.eqb_spec (_id x) id) as [E | _].
    + exfalso. exact (Ha x (list_elem_of_here _ _) E).
    + rewrite IH; [reflexivity |].
      intros y Hy. apply Ha. apply list_elem_of_further, Hy.
Qed.

Lemma remove_first_last id l d :
  absent id l -> _id d = id -> remove_first id (l ++ [d]) = l.
Proof.
  intros Ha Hd. induction l as [| x r IH]; simpl.
  - rewrite Hd, Nat.eqb_refl. reflexivity.
  - destruct (Nat.eqb_spec (_id x) id) as [E | _].
    + exfalso. exact (Ha x (list_elem_of_here _ _) E).
    + f_equal. apply IH.
      intros y Hy. apply Ha. apply list_elem_of_further, Hy.
Qed.

Lemma fresh_id_absent d m : ids_fresh d -> absent (next_id d) (coll m d).
Proof.
  intros Hf x Hx E. destruct (Hf m) as [_ Hall].
  rewrite Forall_forall in Hall. specialize (Hall x Hx). simpl in Hall. lia.
Qed.

Lemma plain_post_created m poster putter deleter env req w d w' :
  plain_crud m poster putter deleter ->
  handle env poster req w = (Responded (ok (JDoc d)), w') ->
  _id d = next_id (db w) /\ coll m (db w') = coll m (db w) ++ [d].
Proof.
  intros [(-> & -> & _) | (-> & -> & _)]; unfold_handler;
    rewrite create_run;
    (destruct (build env _ _) as [o |]; [| discriminate]);
    (destruct (store_fault env _); [discriminate |]);
    intros [= <- <-]; split; reflexivity.
Qed.

(** X13.  An experience entry or a testimonial that has just been created
    can be updated under the identifier the create answered with: in a
    store with unique identifiers the update reaches that document and no
    other, answers with it, and sets the fields the body casts to over those
    it was created with. *)
Theorem create_then_update m poster putter deleter
    env1 env2 req1 req2 w d w1 upd :
  plain_crud m poster putter deleter ->
  ids_fresh (db w) ->
  handle env1 poster req1 w = (Responded (ok (JDoc d)), w1) ->
  params_id req2 = _id d ->
  accepts env2 (CUpdate m (_id d) (body req2)) ->
  cast_update env2 (paths (schema_of m)) (body req2) = Ok upd ->
  fst (handle env2 putter req2 w1)
  = Responded (ok (JDoc (mkDoc (_id d) (upd ∪ fields d))))
  /\ coll m (db (snd (handle env2 putter req2 w1)))
     = coll m (db w) ++ [mkDoc (_id d) (upd ∪ fields d)].
Proof.
  intros Hc Hf Hp Hid Ha Hu.
  destruct (plain_post_created _ _ _ _ _ _ _ _ _ Hc Hp) as [Hd Hcoll].
  assert (handle env2 putter req2 w1
          = match findByIdAndUpdate env2 m (_id d) (body req2) w1 with
            | (Ok x, w') => (Responded (ok (json_of x)), w')
            | (Throw e, w') => (Rejected e, w')
            end) as ->.
  { destruct Hc as [(-> & _ & -> & _) | (-> & _ & -> & _)]; unfold_handler;
      rewrite Hid;
      destruct (findByIdAndUpdate env2 _ _ _ w1) as [[x | e] w']; reflexivity. }
  rewrite findByIdAndUpdate_run, Hu, Ha, Hcoll.
  rewrite (update_first_last (_id d) (set_fields upd) (coll m (db w)) d);
    [| rewrite Hd; apply fresh_id_absent; exact Hf | reflexivity].
  cbn [fst snd db]. rewrite coll_set_coll. split; reflexivity.
Qed.

Lemma create_then_update_witness :
  fst (handle (env_ok 2) PUT_experience_id
         (mkRequest {["role" := VStr "Dev"]} None 0)
         (snd (handle (env_ok 1) POST_experience (plain body_title)
                 empty_world)))
  = Responded
      (ok (JDoc (mkDoc 0 ({["role" := VStr "Dev"]}
                          ∪ {["createdAt" := VDate 1]})))).
Proof.
  refine (proj1 (create_then_update Experience POST_experience
                   PUT_experience_id DELETE_experience_id
                   (env_ok 1) (env_ok 2) (plain body_title)
                   (mkRequest {["role" := VStr "Dev"]} None 0)
                   empty_world (mkDoc 0 {["createdAt" := VDate 1]}) _
                   {["role" := VStr "Dev"]}
                   (or_introl (conj eq_refl (conj eq_refl
                                (conj eq_refl eq_refl))))
                   _ _ eq_refl eq_refl _)).
  - intros m. destruct m; simpl; split; constructor.
  - vm_compute. reflexivity.
  - vm_compute. reflexivity.
Defined.

(** X14.  Creating an experience entry or a testimonial and then deleting
    it under the identifier the create answered with gives back the
    collection of before, in a store with unique identifiers. *)
Theorem create_then_delete m poster putter deleter env1 env2 req1 req2 w d w1 :
  plain_crud m poster putter deleter ->
  ids_fresh (db w) ->
  handle env1 poster req1 w = (Responded (ok (JDoc d)), w1) ->
  params_id req2 = _id d ->
  accepts env2 (CDelete m (_id d)) ->
  coll m (db (snd (handle env2 deleter req2 w1))) = coll m (db w).
Proof.
  intros Hc Hf Hp Hid Ha.
  destruct (plain_post_created _ _ _ _ _ _ _ _ _ Hc Hp) as [Hd Hcoll].
  assert (is_delete deleter = true /\ model_of deleter = m) as [Hdel Hm]
      by (destruct Hc as [(-> & _ & _ & ->) | (-> & _ & _ & ->)];
          split; reflexivity).
  rewrite <- Hm, <- Hid in Ha.
  rewrite (delete_route_accepted env2 deleter req2 w1 Hdel Ha).
  cbn [snd db]. rewrite Hm, coll_set_coll, Hcoll, Hid.
  apply remove_first_last; [| reflexivity].
  rewrite Hd. apply fresh_id_absent. exact Hf.
Qed.

Lemma create_then_delete_witness :
  coll Testimonial
    (db (snd (handle (env_ok 2) DELETE_testimonials_id (mkRequest ∅ None 4)
                (snd (handle (env_ok 1) POST_testimonials (plain body_title)
                        world_with_project)))))
  = coll Testimonial (db world_with_project).
Proof.
  refine (create_then_delete Testimonial POST_testimonials PUT_testimonials_id
            DELETE_testimonials_id (env_ok 1) (env_ok 2) (plain body_title)
            (mkRequest ∅ None 4) world_with_project
            (mkDoc 4 {["createdAt" := VDate 1]}) _
            (or_intror (conj eq_refl (conj eq_refl (conj eq_refl eq_refl))))
            _ _ eq_refl eq_refl).
  - intros m. destruct m; simpl; split; repeat constructor;
      first [ simpl; lia | intros H; apply elem_of_nil in H; exact H ].
  - vm_compute. reflexivity.
Defined.

(** ** Errors inside the handlers *)

Lemma tech_split_throws (b : object) :
  has_no_split (get b "tech") = true ->
  tech_split b = Throw (mkError "req.body.tech?.split is not a function").
Proof. unfold tech_split. destruct (get b "tech"); simpl; congruence. Qed.

(** X15.  A tech member that is neither a string nor absent nor [null]
    (a number, a boolean, an array of repeated form fields) makes both
    Project writes answer 500 with the type error of the missing [split];
    the store is not called and nothing changes, although the upload, when
    there was a file, has been made. *)
Theorem tech_without_split_is_answered_500 env req w image :
  has_no_split (get (body req) "tech") = true ->
  attached env req "portfolio/projects" w = (Ok image, w) ->
  handle env POST_projects req w
  = (Responded (failure (mkError "req.body.tech?.split is not a function")), w)
  /\ handle env PUT_projects_id req w
     = (Responded (failure (mkError "req.body.tech?.split is not a function")),
        w).
Proof.
  intros Ht Hat. pose proof (tech_split_throws _ Ht) as Hs.
  split; unfold_handler; rewrite Hat, Hs; reflexivity.
Qed.

Lemma tech_without_split_is_answered_500_witness :
  handle (env_ok 1) PUT_projects_id
    (with_file {["tech" := VArr ["Go"; "Rust"]]}) world_with_project
  = (Responded (failure (mkError "req.body.tech?.split is not a function")),
     world_with_project).
Proof.
  exact (proj2 (tech_without_split_is_answered_500 (env_ok 1)
                  (with_file {["tech" := VArr ["Go"; "Rust"]]})
                  world_with_project (VStr url0) eq_refl eq_refl)).
Defined.

(** X16.  The presence check of POST /api/contact is JavaScript
    truthiness: the request is answered 400, with the world untouched,
    exactly when name, email or message is falsy, which includes the number
    0 and [false]; any three truthy values, strings or not, get past the
    check, and the handler then either answers 200 with [success: true] or
    rejects. *)
Theorem contact_check_is_truthiness env req w :
  let passes :=
    truthy (get (body req) "name") && truthy (get (body req) "email")
    && truthy (get (body req) "message") in
  (passes = false <->
   handle env POST_contact req w
   = (Responded (mkResponse 400 (JObj {["error" := VStr "All fields required"]})),
      w))
  /\ (passes = true ->
      fst (handle env POST_contact req w)
      = Responded (ok (JObj {["success" := VBool true]}))
      \/ exists e, fst (handle env POST_contact req w) = Rejected e).
Proof.
  intros passes. subst passes. unfold_handler.
  destruct (truthy (get (body req) "name")),
    (truthy (get (body req) "email")),
    (truthy (get (body req) "message")); simpl;
    try (split; [split; intros _; reflexivity | discriminate]);
    (split;
     [ split; [discriminate |];
       destruct (create env Contact (body req) w) as [[d | e] w'];
       discriminate
     | intros _;
       destruct (create env Contact (body req) w) as [[d | e] w'];
       [left; reflexivity | right; eauto] ]).
Qed.

Lemma contact_check_is_truthiness_witness :
  handle (env_ok 1) POST_contact
    (plain (<["name" := VNum 0]> (msg "A"))) empty_world
  = (Responded (mkResponse 400 (JObj {["error" := VStr "All fields required"]})),
     empty_world).
Proof.
  exact (proj1 (proj1 (contact_check_is_truthiness (env_ok 1)
                         (plain (<["name" := VNum 0]> (msg "A"))) empty_world))
           eq_refl).
Defined.

(** ** Splitting tech *)

Lemma split_nonempty sep s : split sep s <> [].
Proof.
  destruct s as [| c r]; simpl; [discriminate |].
  destruct (Ascii.eqb c sep); [discriminate |].
  destruct (split sep r); discriminate.
Qed.

Lemma join_cons sep x y r :
  join sep (x :: y :: r) = (x ++ sep ++ join sep (y :: r))%string.
Proof. reflexivity. Qed.

Lemma split_join c s : join (String c EmptyString) (split c s) = s.
Proof.
  induction s as [| a r IH]; simpl; [reflexivity |].
  destruct (Ascii.eqb_spec a c) as [-> | Hne].
  - pose proof (split_nonempty c r) as Hn.
    destruct (split c r) as [| h t] eqn:E; [contradiction |].
    rewrite join_cons, IH. reflexivity.
  - pose proof (split_nonempty c r) as Hn.
    destruct (split c r) as [| h t] eqn:E; [contradiction |].
    destruct t as [| h2 t2]; rewrite <- IH; reflexivity.
Qed.

Lemma split_pieces_clean c s :
  Forall (fun piece => contains c piece = false) (split c s).
Proof.
  induction s as [| a r IH]; simpl.
  - repeat constructor.
  - destruct (Ascii.eqb a c) eqn:E.
    + constructor; [reflexivity | exact IH].
    + pose proof (split_nonempty c r) as Hn.
      destruct (split c r) as [| h t]; [contradiction |].
      apply Forall_cons in IH as [Hh Ht].
      constructor; [simpl; rewrite E, Hh; reflexivity | exact Ht].
Qed.

(** X19.  Whenever the split of tech gives a sequence, the body carried
    tech as a string; the sequence is not empty, none of its pieces contains
    a comma, and joining the pieces with commas gives back the string that
    was sent: nothing of it is lost or altered. *)
Theorem tech_pieces_join_back (b : object) l :
  tech_split b = Ok (VArr l) ->
  exists s,
    get b "tech" = VStr s
    /\ l <> []
    /\ Forall (fun piece => contains "," piece = false) l
    /\ join "," l = s.
Proof.
  unfold tech_split. destruct (get b "tech") as [| | | | s | |];
    try discriminate.
  intros [= <-]. exists s. split; [reflexivity |].
  split; [apply split_nonempty |].
  split; [apply split_pieces_clean | apply split_join].
Qed.

Lemma tech_pieces_join_back_witness :
  exists s,
    get body_spaced_tech "tech" = VStr s
    /\ ["Go"; " Rust"] <> []
    /\ Forall (fun piece => contains "," piece = false) ["Go"; " Rust"]
    /\ join "," ["Go"; " Rust"] = s.
Proof.
  exact (tech_pieces_join_back body_spaced_tech ["Go"; " Rust"] eq_refl).
Defined.

(** ** The contact handler of the standalone server (lines 742-752) *)

(** X20.  The standalone server's contact handler hands [Contact.create]
    the four members it picked out of the body and nothing else: whatever
    else the body carries, a [createdAt] included, does not reach the store,
    and the contact that is stored is dated by the server's clock. *)
Theorem standalone_contact_picks_four_fields env req w o :
  let data : object :=
    <["name" := get (body req) "name"]>
      (<["email" := get (body req) "email"]>
         (<["phone" := get (body req) "phone"]>
            {["message" := get (body req) "message"]})) in
  truthy (get (body req) "name") && truthy (get (body req) "email")
  && truthy (get (body req) "message") = true ->
  accepts env (CCreate Contact data) ->
  build env (doc_paths (schema_of Contact)) data = Ok o ->
  exists d w',
    post_api_contact_standalone env req w
    = (Ok (ok (JObj (<["success" := VBool true]>
                       {["message" := VStr "Message sent successfully"]}))),
       w')
    /\ store_log w' = store_log w ++ [CCreate Contact data]
    /\ (forall k, k ∉ ["name"; "email"; "phone"; "message"] -> data !! k = None)
    /\ contacts (db w') = contacts (db w) ++ [d]
    /\ created_key d = Some (now env).
Proof.
  intros data Hp Ha Hb. unfold post_api_contact_standalone.
  apply andb_prop in Hp as [Hp Hm]. apply andb_prop in Hp as [Hn He].
  rewrite Hn, He, Hm. cbn [negb orb].
  fold data. unfold bind.
  rewrite (create_run env Contact data w), Ha, Hb. simpl.
  eexists. eexists. split; [reflexivity |]. simpl.
  split; [reflexivity |].
  split.
  { intros k Hk. subst data.
    rewrite !not_elem_of_cons in Hk. destruct Hk as (H1 & H2 & H3 & H4 & _).
    rewrite !lookup_insert_ne by congruence.
    apply lookup_singleton_ne. congruence. }
  split; [reflexivity |].
  apply (created_key_now env Contact data o); [discriminate | exact Hb |].
  subst data. rewrite !lookup_insert_ne by discriminate.
  apply lookup_singleton_ne. discriminate.
Qed.

Lemma standalone_contact_picks_four_fields_witness :
  exists d w',
    post_api_contact_standalone (env_ok 9)
      (plain (<["createdAt" := VDate 0]> (msg "A"))) empty_world
    = (Ok (ok (JObj (<["success" := VBool true]>
                       {["message" := VStr "Message sent successfully"]}))),
       w')
    /\ contacts (db w') = contacts (db empty_world) ++ [d]
    /\ created_key d = Some 9%Z.
Proof.
  destruct (standalone_contact_picks_four_fields (env_ok 9)
              (plain (<["createdAt" := VDate 0]> (msg "A"))) empty_world
              (<["createdAt" := VDate 9]>
                 (<["name" := VStr "A"]> (<["email" := VStr "a@b.c"]>
                    {["message" := VStr "hello"]}))))
    as (d & w' & H1 & _ & _ & H4 & H5);
    [vm_compute; reflexivity | reflexivity | vm_compute; reflexivity |].
  exists d, w'. auto.
Defined.

(** ** What the creates and the Profile write store *)

Lemma string_path_stored env m data o k s :
  build env (doc_paths (schema_of m)) data = Ok o ->
  str k ∈ paths (schema_of m) ->
  get data k = VStr s ->
  o !! k = Some (VStr s).
Proof.
  intros Hb Hin Hg.
  destruct (built_path env m data o (str k) Hb) as (v' & Hv & Hl).
  { unfold doc_paths. apply elem_of_app. left. exact Hin. }
  unfold member in Hv. simpl in Hv. rewrite Hg in Hv. simpl in Hv.
  injection Hv as <-. exact Hl.
Qed.




(** X22.  A Profile write with a file whose upload resolves to the URL
    [u] stores [u] as the photo, over whatever the body gives for photo:
    in the updated Profile when one exists, in the created one when none
    does (the store taking the calls and the data casting). *)
Theorem uploaded_photo_is_stored env req w f r u :
  file req = Some f ->
  cloud env (buffer f) "portfolio/profile" = (None, r) ->
  secure_url r = u ->
  u <> "" ->
  accepts env (CFindOne Profile) ->
  let data := <["photo" := VStr u]> (body req) in
  (forall p rest upd,
      profiles (db w) = p :: rest ->
      accepts env (CUpdate Profile (_id p) data) ->
      cast_update env (paths (schema_of Profile)) data = Ok upd ->
      exists p' w',
        handle env POST_profile req w = (Responded (ok (JDoc p')), w')
        /\ profiles (db w') = p' :: rest
        /\ fields p' !! "photo" = Some (VStr u))
  /\ (forall o,
         profiles (db w) = [] ->
         accepts env (CCreate Profile data) ->
         build env (doc_paths (schema_of Profile)) data = Ok o ->
         exists p' w',
           handle env POST_profile req w = (Responded (ok (JDoc p')), w')
           /\ profiles (db w') = [p']
           /\ fields p' !! "photo" = Some (VStr u)).
Proof.
  intros Hf Hc <- Hu Ha data.
  pose proof (attached_some _ _ _ w _ _ Hf Hc) as Hat.
  pose proof (post_profile_run _ _ _ _ Hat Ha) as Hrun. cbv zeta in Hrun.
  assert (profile_data (VStr (secure_url r)) (body req) = data) as Hd.
  { unfold profile_data, spread_if_truthy. rewrite (truthy_url _ Hu).
    reflexivity. }
  rewrite Hd in Hrun.
  assert (get data "photo" = VStr (secure_url r)) as Hg.
  { unfold get, data. rewrite lookup_insert_eq. reflexivity. }
  split.
  - intros p rest upd Hp Hup Hcu.
    rewrite Hrun, Hp,
      (findByIdAndUpdate_run env Profile (_id p) data), Hup, Hcu.
    simpl coll. rewrite Hp, (update_first_head _ _ p rest eq_refl).
    eexists. eexists. split; [reflexivity |]. simpl.
    split; [reflexivity |].
    apply lookup_union_Some_l.
    destruct (cast_paths_in env _ _ data upd (str "photo")
                (update_names_distinct Profile) Hcu)
      as (v' & Hv & Hl); [simpl; in_list |].
    unfold member in Hv. simpl in Hv. rewrite Hg in Hv. simpl in Hv.
    injection Hv as <-. exact Hl.
  - intros o Hp Hcr Hb.
    rewrite Hrun, Hp, (create_run env Profile data), Hcr, Hb. simpl.
    eexists. eexists. split; [reflexivity |]. simpl. rewrite Hp.
    split; [reflexivity |].
    apply (string_path_stored env Profile data o "photo" _ Hb);
      [simpl; in_list | exact Hg].
Qed.

Lemma uploaded_photo_is_stored_witness :
  exists p' w',
    handle (env_ok 2) POST_profile
      (with_file {["photo" := VStr "mine.png"]}) world_with_profile
    = (Responded (ok (JDoc p')), w')
    /\ profiles (db w') = p' :: []
    /\ fields p' !! "photo" = Some (VStr url0).
Proof.
  refine (proj1 (uploaded_photo_is_stored (env_ok 2)
                   (with_file {["photo" := VStr "mine.png"]})
                   world_with_profile (mkFile [Byte.x89; Byte.x50])
                   (mkUpload url0) url0 eq_refl eq_refl eq_refl _ eq_refl)
            ada [] {["photo" := VStr url0]} eq_refl eq_refl _).
  - discriminate.
  - vm_compute. reflexivity.
Defined.

Lemma create_fails env m data e w :
  write_fails env (CCreate m data) e ->
  create env m data w = (Throw e, logged (CCreate m data) w).
Proof.
  rewrite create_run. intros [-> | [(o & ->) ->]]; reflexivity.
Qed.

Lemma update_fails env m id data e w :
  write_fails env (CUpdate m id data) e ->
  findByIdAndUpdate env m id data w = (Throw e, logged (CUpdate m id data) w).
Proof.
  rewrite findByIdAndUpdate_run. intros [-> | [(upd & ->) ->]]; reflexivity.
Qed.

(** X23.  On the handlers written with [try]/[catch] a write that fails is
    answered 500 with the message of what was thrown, and the collections
    stay as they were.  Data that does not validate or cast is answered
    with the validation error, whatever the store would have done with it;
    data that does is answered with the store's error when the store
    throws.  So for the query of the Profile write, which has nothing to
    cast, for its create or update, for the create of a Project or of a
    Certification, and for the update of a Project. *)
Theorem caught_write_failure_is_answered env req w e :
  (forall photo,
      attached env req "portfolio/profile" w = (Ok photo, w) ->
      (store_fault env (CFindOne Profile) = Some e ->
       handle env POST_profile req w
       = (Responded (failure e), logged (CFindOne Profile) w))
      /\ (forall c,
             accepts env (CFindOne Profile) ->
             c = match profiles (db w) with
                 | p :: _ =>
                     CUpdate Profile (_id p) (profile_data photo (body req))
                 | [] => CCreate Profile (profile_data photo (body req))
                 end ->
             write_fails env c e ->
             handle env POST_profile req w
             = (Responded (failure e), logged c (logged (CFindOne Profile) w))))
  /\ (forall image tech,
         attached env req "portfolio/projects" w = (Ok image, w) ->
         tech_split (body req) = Ok tech ->
         (write_fails env
            (CCreate Project (project_create_data tech image (body req))) e ->
          handle env POST_projects req w
          = (Responded (failure e),
             logged (CCreate Project
                       (project_create_data tech image (body req))) w))
         /\ (write_fails env
               (CUpdate Project (params_id req)
                  (project_update_data tech image (body req))) e ->
             handle env PUT_projects_id req w
             = (Responded (failure e),
                logged (CUpdate Project (params_id req)
                          (project_update_data tech image (body req))) w)))
  /\ (forall image,
         attached env req "portfolio/certifications" w = (Ok image, w) ->
         write_fails env
           (CCreate Certification (certification_data image (body req))) e ->
         handle env POST_certifications req w
         = (Responded (failure e),
            logged (CCreate Certification
                      (certification_data image (body req))) w)).
Proof.
  split; [| split].
  - intros photo Hat. split.
    + intros Hf. unfold_handler. rewrite Hat, findOne_run, Hf. reflexivity.
    + intros c Ha -> Hf.
      rewrite (post_profile_run _ _ _ _ Hat Ha). cbv zeta.
      destruct (profiles (db w)) as [| p rest].
      * rewrite (create_fails _ _ _ _ _ Hf). reflexivity.
      * rewrite (update_fails _ _ _ _ _ _ Hf). reflexivity.
  - intros image tech Hat Ht. split; intros Hf.
    + rewrite (post_projects_run _ _ _ _ _ Hat Ht), (create_fails _ _ _ _ _ Hf).
      reflexivity.
    + rewrite (put_projects_run _ _ _ _ _ Hat Ht),
        (update_fails _ _ _ _ _ _ Hf).
      reflexivity.
  - intros image Hat Hf.
    rewrite (post_certifications_run _ _ _ _ Hat), (create_fails _ _ _ _ _ Hf).
    reflexivity.
Qed.

Lemma caught_write_failure_is_answered_witness :
  handle env_store_down POST_certifications (with_file body_title) empty_world
  = (Responded (failure lost),
     logged (CCreate Certification
               (certification_data (VStr url0) (body (with_file body_title))))
       empty_world)
  /\ handle env_no_casts POST_certifications
       (plain {["year" := VNum 2020]}) empty_world
     = (Responded (failure cast_error),
        logged (CCreate Certification
                  (certification_data VUndef
                     (body (plain {["year" := VNum 2020]}))))
          empty_world).
Proof.
  split.
  - refine (proj2 (proj2 (caught_write_failure_is_answered env_store_down
                            (with_file body_title) empty_world lost))
              (VStr url0) eq_refl _).
    right. split; [eexists; vm_compute; reflexivity | reflexivity].
  - refine (proj2 (proj2 (caught_write_failure_is_answered env_no_casts
                            (plain {["year" := VNum 2020]}) empty_world
                            cast_error))
              VUndef eq_refl _).
    left. vm_compute. reflexivity.
Defined.

Lemma update_first_others id f l x l' y :
  update_first id f l = Some (x, l') ->
  y ∈ l -> _id y <> id -> y ∈ l'.
Proof.
  revert x l'. induction l as [| a r IH]; intros x l' H Hy Hne; simpl in H.
  - discriminate.
  - destruct (Nat.eqb_spec (_id a) id) as [E | _].
    + injection H as _ <-. apply elem_of_cons in Hy as [-> | Hy];
        [contradiction | apply list_elem_of_further, Hy].
    + destruct (update_first id f r) as [[z r'] |] eqn:Hu; [| discriminate].
      injection H as _ <-. apply elem_of_cons in Hy as [-> | Hy].
      * apply list_elem_of_here.
      * apply list_elem_of_further. exact (IH _ _ eq_refl Hy Hne).
Qed.

(** X24.  An update of an experience entry or of a testimonial under the
    identifier of a stored document, when the body casts and the store
    takes the call, answers with that document updated: it keeps its
    identifier, takes the fields the body casts to and keeps every other
    field that the body does not give, [updatedAt] apart, which every update
    rewrites and which the stored documents leave out; the documents under
    other identifiers are still there as they were, and the collection
    keeps its length. *)
Theorem update_of_known_id env r req w upd :
  is_plain_put r = true ->
  (exists q, q ∈ coll (model_of r) (db w) /\ _id q = params_id req) ->
  accepts env (CUpdate (model_of r) (params_id req) (body req)) ->
  cast_update env (paths (schema_of (model_of r))) (body req) = Ok upd ->
  let w' := snd (handle env r req w) in
  exists q,
    q ∈ coll (model_of r) (db w)
    /\ _id q = params_id req
    /\ fst (handle env r req w)
       = Responded (ok (JDoc (mkDoc (_id q) (upd ∪ fields q))))
    /\ mkDoc (_id q) (upd ∪ fields q) ∈ coll (model_of r) (db w')
    /\ (forall k, k <> "updatedAt" -> get (body req) k = VUndef ->
                  (upd ∪ fields q) !! k = fields q !! k)
    /\ (forall y, y ∈ coll (model_of r) (db w) -> _id y <> params_id req ->
                  y ∈ coll (model_of r) (db w'))
    /\ length (coll (model_of r) (db w')) = length (coll (model_of r) (db w)).
Proof.
  intros Hr Hex Ha Hc w'. subst w'.
  assert (handle env r req w
          = match findByIdAndUpdate env (model_of r) (params_id req)
                    (body req) w with
            | (Ok d, w') => (Responded (ok (json_of d)), w')
            | (Throw e, w') => (Rejected e, w')
            end) as E.
  { destruct r; try discriminate; unfold_handler; simpl model_of;
      destruct (findByIdAndUpdate env _ _ _ w) as [[d | e] w']; reflexivity. }
  destruct (update_first_some (params_id req) (set_fields upd)
              (coll (model_of r) (db w)) (fun x => eq_refl) Hex)
    as (q & l' & Hu & Hq & Hid & Hfq & Hlen).
  rewrite findByIdAndUpdate_run, Hc, Ha, Hu in E.
  set (h := handle env r req w) in *. rewrite E. clear E h.
  cbn [fst snd db]. rewrite coll_set_coll.
  exists q. split; [exact Hq |]. split; [exact Hid |].
  split; [reflexivity |]. split; [exact Hfq |]. split; [| split].
  - intros k _ Hk. apply lookup_union_r.
    exact (cast_update_untouched _ _ _ _ _ Hc Hk).
  - intros y Hy Hne. exact (update_first_others _ _ _ _ _ _ Hu Hy Hne).
  - exact Hlen.
Qed.

Lemma update_of_known_id_witness :
  exists q,
    q ∈ coll Experience (db (snd (handle (env_ok 1) POST_experience
                                    (plain {["company" := VStr "ACME"]})
                                    empty_world)))
    /\ fst (handle (env_ok 2) PUT_experience_id
              (mkRequest {["role" := VStr "Dev"]} None 0)
              (snd (handle (env_ok 1) POST_experience
                      (plain {["company" := VStr "ACME"]}) empty_world)))
       = Responded
           (ok (JDoc (mkDoc (_id q) ({["role" := VStr "Dev"]} ∪ fields q)))).
Proof.
  destruct (update_of_known_id (env_ok 2) PUT_experience_id
              (mkRequest {["role" := VStr "Dev"]} None 0)
              (snd (handle (env_ok 1) POST_experience
                      (plain {["company" := VStr "ACME"]}) empty_world))
              {["role" := VStr "Dev"]} eq_refl)
    as (q & Hq & _ & Hr & _);
    [ eexists; split; [vm_compute; apply list_elem_of_here | reflexivity]
    | reflexivity
    | vm_compute; reflexivity
    | exists q; split; [exact Hq | exact Hr] ].
Defined.
